(** * Structural method editors of [synthtool/languages/java.py]

    A shallow embedding of the five line-oriented editors
    [remove_method], [copy_and_rename_method], [add_javadoc],
    [annotate_method] and [deprecate_method], and the properties of
    them that the specification states.

    Modelling conventions.
    - A Python [str] is a [string]; a character is a code point below
      256.  A file is its content, a [string].  The files are read in
      text mode with universal newlines: [universal_newlines] turns
      every carriage return, with the line feed that may follow it,
      into a line feed, and [fp.readline()] yields that text line by
      line.  [fp.write] stores the lines as they are (the line
      separator of the system is the line feed).
    - The signature pattern (a whitespace group, the escaped signature,
      any rest) is matched at the start of a line: a greedy run of
      whitespace, then the literal signature, then anything.
      [sig_match] returns [group(1)].
    - The pattern compiled from [match.group(1)] followed by a closing
      brace is made of literal characters only, so
      [leading_regex.match(line)] holds exactly when the line starts
      with that text: the compiled pattern is modelled by the text it
      matches as a prefix.
    - [lines.pop()] on an empty list raises [IndexError]; the editors
      that pop return a [result].
    - [HEADER_REGEX] is a sequence of literal characters and digits;
      [_file_has_header] searches it in every line of the file.  The
      path of a group id in [latest_maven_version] is modelled with
      [split] and [join] of [str]. *)

From Stdlib Require Import String Ascii List Arith Bool Lia.
Import ListNotations.
Open Scope string_scope.
Open Scope list_scope.
Open Scope nat_scope.

(** Concatenation of [str], written [+] in the source. *)
Infix "+++" := String.append (right associativity, at level 60).

(** ** Python [str] primitives *)

Module Str.

Definition LF : ascii := ascii_of_nat 10.
Definition CR : ascii := ascii_of_nat 13.
Definition TAB : ascii := ascii_of_nat 9.

(** The one-character string holding a line feed. *)
Definition nl : string := String LF "".

(** [str.isspace] on one character (also the class [\s] of [re] for
    [str] patterns), for code points below 256. *)
Definition isspace (c : ascii) : bool :=
  let n := nat_of_ascii c in
  ((9 <=? n) && (n <=? 13)) || ((28 <=? n) && (n <=? 32))
  || (n =? 133) || (n =? 160).

(** [s.lstrip()] *)
Fixpoint lstrip (s : string) : string :=
  match s with
  | "" => ""
  | String c r => if isspace c then lstrip r else s
  end.

(** [s.rstrip()] *)
Fixpoint rstrip (s : string) : string :=
  match s with
  | "" => ""
  | String c r =>
      match rstrip r with
      | "" => if isspace c then "" else String c ""
      | r' => String c r'
      end
  end.

(** [s.strip()] *)
Definition strip (s : string) : string := rstrip (lstrip s).

(** [n] space characters: [leading_spaces] times the one-space [str]. *)
Fixpoint spaces (n : nat) : string :=
  match n with
  | 0 => ""
  | S k => String " " (spaces k)
  end.

(** [s.replace(before, after)] for a non-empty [before]: scan from the
    left, [skip] counts the characters of a match still to be dropped. *)
Fixpoint replace_scan (before after : string) (skip : nat) (s : string) : string :=
  match s with
  | "" => ""
  | String c r =>
      match skip with
      | S k => replace_scan before after k r
      | 0 =>
          if prefix before s
          then after +++ replace_scan before after (String.length before - 1) r
          else String c (replace_scan before after 0 r)
      end
  end.

(** [s.replace(before, after)] for the empty [before]: [after] before
    every character and at the end. *)
Fixpoint replace_empty (after : string) (s : string) : string :=
  match s with
  | "" => after
  | String c r => after +++ String c (replace_empty after r)
  end.

(** [s.replace(before, after)] *)
Definition replace (before after s : string) : string :=
  match before with
  | "" => replace_empty after s
  | _ => replace_scan before after 0 s
  end.

(** The line boundaries of [str.splitlines], for code points below 256. *)
Definition is_linebreak (c : ascii) : bool :=
  let n := nat_of_ascii c in
  ((10 <=? n) && (n <=? 13)) || ((28 <=? n) && (n <=? 30)) || (n =? 133).

(** [s.splitlines()]; [after_cr] tells that the previous character was a
    carriage return, whose line feed belongs to the same boundary. *)
Fixpoint splitlines_from (after_cr : bool) (s : string) : list string :=
  match s with
  | "" => []
  | String c r =>
      if after_cr && Ascii.eqb c LF then splitlines_from false r
      else if is_linebreak c then "" :: splitlines_from (Ascii.eqb c CR) r
      else match splitlines_from false r with
           | [] => [String c ""]
           | l :: ls => String c l :: ls
           end
  end.

Definition splitlines (s : string) : list string := splitlines_from false s.

End Str.

Import Str.

(** ** Files *)

(** The text that the file opened for reading hands to the program.
    The files are opened in text mode without [newline] argument:
    a carriage return followed by a line feed, and a carriage return
    alone, both reach the program as one line feed.  [after_cr] tells
    that the previous character was a carriage return, whose line feed
    is not counted twice. *)
Fixpoint universal_newlines_from (after_cr : bool) (content : string) : string :=
  match content with
  | "" => ""
  | String c r =>
      if after_cr && Ascii.eqb c LF then universal_newlines_from false r
      else if Ascii.eqb c CR then String LF (universal_newlines_from true r)
      else String c (universal_newlines_from false r)
  end.

Definition universal_newlines (content : string) : string :=
  universal_newlines_from false content.

(** The lines of a text: each line keeps its line feed; the last one
    may lack it. *)
Fixpoint lines_of (text : string) : list string :=
  match text with
  | "" => []
  | String c r =>
      if Ascii.eqb c LF then String c "" :: lines_of r
      else match lines_of r with
           | [] => [String c ""]
           | l :: ls => String c l :: ls
           end
  end.

(** The lines that repeated [fp.readline()] returns until it returns
    the empty string. *)
Definition readlines (content : string) : list string :=
  lines_of (universal_newlines content).

(** [for line in lines: fp.write(line)] on the file opened for writing,
    where the line separator of the system is the line feed: what is
    written is stored as it is. *)
Fixpoint write (lines : list string) : string :=
  match lines with
  | [] => ""
  | l :: ls => l +++ write ls
  end.

(** ** Exceptions *)

Inductive exn : Set := IndexError.

Inductive result (A : Type) : Type :=
| Ok (a : A)
| Raise (e : exn).
Arguments Ok {A} a.
Arguments Raise {A} e.

Definition bind {A B : Type} (r : result A) (k : A -> result B) : result B :=
  match r with
  | Ok a => k a
  | Raise e => Raise e
  end.

(** ** The signature pattern *)

(** [regex.match(line)] for the signature pattern: [Some g] when it
    matches, with [g = match.group(1)].  The greedy group takes the
    longest run of whitespace after which the signature follows, and
    gives characters back otherwise. *)
Fixpoint sig_match (signature line : string) : option string :=
  match line with
  | "" => if prefix signature line then Some "" else None
  | String c r =>
      if isspace c then
        match sig_match signature r with
        | Some g => Some (String c g)
        | None => if prefix signature line then Some "" else None
        end
      else if prefix signature line then Some "" else None
  end.

Definition sig_matches (signature line : string) : bool :=
  match sig_match signature line with
  | Some _ => true
  | None => false
  end.

(** ** remove_method *)

(** The [while line:] loop.  [leading_regex] is [None] or the text
    of [match.group(1)] and the closing brace; [lines] is the list
    being built; [fp] holds the lines not read yet. *)
Fixpoint remove_method_loop (signature : string) (leading_regex : option string)
    (lines : list string) (fp : list string) : list string :=
  match fp with
  | [] => lines
  | line :: fp' =>
      match sig_match signature line with
      | Some g => remove_method_loop signature (Some (g +++ "}")) lines fp'
      | None =>
          match leading_regex with
          | None => remove_method_loop signature None (lines ++ [line]) fp'
          | Some closing =>
              if prefix closing line
              then remove_method_loop signature None lines fp'
              else remove_method_loop signature (Some closing) lines fp'
          end
      end
  end.

Definition remove_method_lines (signature : string) (fp : list string) : list string :=
  remove_method_loop signature None [] fp.

Definition remove_method (content signature : string) : string :=
  write (remove_method_lines signature (readlines content)).

(** ** copy_and_rename_method *)

Fixpoint copy_and_rename_loop (signature before after : string)
    (leading_regex : option string) (lines method : list string)
    (fp : list string) : list string :=
  match fp with
  | [] => lines
  | line :: fp' =>
      match sig_match signature line with
      | Some g =>
          copy_and_rename_loop signature before after (Some (g +++ "}"))
            (lines ++ [line]) (method ++ [replace before after line]) fp'
      | None =>
          let lines := lines ++ [line] in
          match leading_regex with
          | Some closing =>
              let method := method ++ [line] in
              if prefix closing line
              then copy_and_rename_loop signature before after None
                     ((lines ++ [nl]) ++ method) method fp'
              else copy_and_rename_loop signature before after (Some closing)
                     lines method fp'
          | None =>
              copy_and_rename_loop signature before after None lines method fp'
          end
      end
  end.

Definition copy_and_rename_lines (signature before after : string)
    (fp : list string) : list string :=
  copy_and_rename_loop signature before after None [] [] fp.

Definition copy_and_rename_method (content signature before after : string) : string :=
  write (copy_and_rename_lines signature before after (readlines content)).

(** ** add_javadoc *)

(** [len(line) - len(line.lstrip())] *)
Definition leading_spaces (line : string) : nat :=
  String.length line - String.length (lstrip line).

(** [last_line.lstrip()] is not empty and its first character is the
    at sign. *)
Definition is_annotation (last_line : string) : bool :=
  match lstrip last_line with
  | String c _ => Ascii.eqb c "@"
  | "" => false
  end.

(** The [for content_line in content:] loop: the lines it appends. *)
Fixpoint javadoc_entries (indent javadoc_type : string) (first : bool)
    (content : list string) : list string :=
  match content with
  | [] => []
  | content_line :: content' =>
      (if first
       then indent +++ " * @" +++ javadoc_type +++ " " +++ content_line +++ nl
       else indent +++ " *   " +++ content_line +++ nl)
      :: javadoc_entries indent javadoc_type false content'
  end.

(** [lines.pop()], on the list held in reverse. *)
Definition pop (rev_lines : list string) : result (string * list string) :=
  match rev_lines with
  | [] => Raise IndexError
  | x :: r => Ok (x, r)
  end.

(** The [while] loop that pops while [last_line] is an annotation line.
    [rev_lines] is [lines] in reverse, so that [pop] takes its head. *)
Fixpoint collect_annotations (rev_lines : list string) (annotations : list string)
    (last_line : string) : result (string * list string * list string) :=
  if is_annotation last_line then
    match rev_lines with
    | [] => Raise IndexError
    | x :: r => collect_annotations r (annotations ++ [last_line]) x
    end
  else Ok (last_line, rev_lines, annotations).

(** The body of [if match:] in [add_javadoc]: the new [lines] and
    [annotations]. *)
Definition add_javadoc_match (javadoc_type : string) (content : list string)
    (line : string) (lines annotations : list string)
    : result (list string * list string) :=
  let indent := spaces (leading_spaces line) in
  bind (pop (rev lines)) (fun '(last_line, rev_lines) =>
  bind (collect_annotations rev_lines annotations last_line)
    (fun '(last_line, rev_lines, annotations) =>
  let lines := rev rev_lines in
  let lines :=
    if String.eqb (strip last_line) "*/" then
      (lines ++ javadoc_entries indent javadoc_type true content) ++ [last_line]
    else
      (((lines ++ [last_line]) ++ [indent +++ "/**" +++ nl])
         ++ javadoc_entries indent javadoc_type true content)
        ++ [indent +++ " */" +++ nl] in
  Ok (lines ++ rev annotations, annotations))).

Fixpoint add_javadoc_loop (signature javadoc_type : string) (content : list string)
    (lines annotations : list string) (fp : list string) : result (list string) :=
  match fp with
  | [] => Ok lines
  | line :: fp' =>
      match sig_match signature line with
      | Some _ =>
          bind (add_javadoc_match javadoc_type content line lines annotations)
            (fun '(lines, annotations) =>
               add_javadoc_loop signature javadoc_type content
                 (lines ++ [line]) annotations fp')
      | None =>
          add_javadoc_loop signature javadoc_type content
            (lines ++ [line]) annotations fp'
      end
  end.

Definition add_javadoc_lines (signature javadoc_type : string)
    (content : list string) (fp : list string) : result (list string) :=
  add_javadoc_loop signature javadoc_type content [] [] fp.

(** The file after the call, or the exception that left it as it was. *)
Definition add_javadoc (file signature javadoc_type : string)
    (content : list string) : result string :=
  bind (add_javadoc_lines signature javadoc_type content (readlines file))
    (fun lines => Ok (write lines)).

(** ** annotate_method *)

Fixpoint annotate_method_loop (signature annotation : string)
    (lines : list string) (fp : list string) : list string :=
  match fp with
  | [] => lines
  | line :: fp' =>
      match sig_match signature line with
      | Some _ =>
          let indent := spaces (leading_spaces line) in
          annotate_method_loop signature annotation
            ((lines ++ [indent +++ annotation +++ nl]) ++ [line]) fp'
      | None => annotate_method_loop signature annotation (lines ++ [line]) fp'
      end
  end.

Definition annotate_method_lines (signature annotation : string)
    (fp : list string) : list string :=
  annotate_method_loop signature annotation [] fp.

Definition annotate_method (file signature annotation : string) : string :=
  write (annotate_method_lines signature annotation (readlines file)).

(** ** deprecate_method *)

Definition deprecate_method (file signature alternative : string) : result string :=
  bind (add_javadoc file signature "deprecated" (splitlines alternative))
    (fun file => Ok (annotate_method file signature "@Deprecated")).

(** ** The statements of the specification, for comparison *)

Module Spec.

(** The leading whitespace of a line, as characters. *)
Fixpoint leading_whitespace (line : string) : string :=
  match line with
  | "" => ""
  | String c r => if isspace c then String c (leading_whitespace r) else ""
  end.

(** A closing line as the specification words it: the entire trimmed
    content equals a closing brace and the leading whitespace equals
    the Indent Prefix. *)
Definition is_closing_line (indent line : string) : bool :=
  String.eqb (strip line) "}" && String.eqb (leading_whitespace line) indent.

(** The content lines of a comment, behind [n] spaces: the first line
    of the content behind the tag, every other line as a continuation
    line. *)
Definition tagged_lines (n : nat) (javadoc_type : string) (content : list string)
    : list string :=
  match content with
  | [] => []
  | first_line :: more =>
      (spaces n +++ " * @" +++ javadoc_type +++ " " +++ first_line +++ nl)
      :: map (fun content_line => spaces n +++ " *   " +++ content_line +++ nl) more
  end.

(** The line above the annotations of a method, once documented: when
    it closes a comment, the content lines go in above it; otherwise a
    new comment follows it, the opening line, the content lines and the
    closing line, all behind [n] spaces. *)
Definition documented (n : nat) (javadoc_type : string) (content : list string)
    (last_line : string) : list string :=
  if String.eqb (strip last_line) "*/" then
    tagged_lines n javadoc_type content ++ [last_line]
  else
    [last_line; spaces n +++ "/**" +++ nl]
      ++ tagged_lines n javadoc_type content
      ++ [spaces n +++ " */" +++ nl].

(** A tagged entry of a deprecation note, and the marker annotation. *)
Definition is_note (l : string) : bool := prefix "* @deprecated" (lstrip l).

Definition is_marker (l : string) : bool := String.eqb (strip l) "@Deprecated".

End Spec.

(** ** Shapes of files *)

(** No line of [ls] matches the signature. *)
Definition plain (signature : string) (ls : list string) : Prop :=
  Forall (fun l => sig_match signature l = None) ls.

(** No line of [ls] starts with the text [closing]. *)
Definition open_under (closing : string) (ls : list string) : Prop :=
  Forall (fun l => prefix closing l = false) ls.

(** The first character of the signature is not whitespace and is none
    of the characters that start the text the editors insert. *)
Definition sig_head_ok (signature : string) : bool :=
  match signature with
  | "" => false
  | String c _ =>
      negb (isspace c) && negb (Ascii.eqb c "*") && negb (Ascii.eqb c "/")
      && negb (Ascii.eqb c "@")
  end.

(** A line as it is read back: it ends with its only line feed and
    holds no carriage return. *)
Fixpoint is_full_line (l : string) : bool :=
  match l with
  | "" => false
  | String c r =>
      if Ascii.eqb c LF then String.eqb r ""
      else negb (Ascii.eqb c CR) && is_full_line r
  end.

(** A text within one line: it holds neither a line feed nor a carriage
    return. *)
Fixpoint no_newline (s : string) : bool :=
  match s with
  | "" => true
  | String c r => negb (Ascii.eqb c LF) && negb (Ascii.eqb c CR) && no_newline r
  end.

(** A text without carriage return. *)
Fixpoint no_cr (s : string) : bool :=
  match s with
  | "" => true
  | String c r => negb (Ascii.eqb c CR) && no_cr r
  end.

(** The lines of a file: all full, but the last one, which may lack its
    line feed. *)
Fixpoint file_lines (ls : list string) : Prop :=
  match ls with
  | [] => True
  | l :: ls' =>
      match ls' with
      | [] => is_full_line l = true \/ (l <> "" /\ no_newline l = true)
      | _ => is_full_line l = true /\ file_lines ls'
      end
  end.

(** [xs] occurs in [ys], in order. *)
Inductive subseq {A : Type} : list A -> list A -> Prop :=
| subseq_nil : subseq [] []
| subseq_skip x xs ys : subseq xs ys -> subseq xs (x :: ys)
| subseq_keep x xs ys : subseq xs ys -> subseq (x :: xs) (x :: ys).

(** ** Shapes of the edits *)

(** A block with its signature line renamed, as [method] holds it. *)
Definition renamed_block (before after sig : string) (body : list string)
    (closer : string) : list string :=
  replace before after sig :: body ++ [closer].

(** What [annotate_method] puts in place of one line. *)
Definition annotated (signature annotation line : string) : list string :=
  match sig_match signature line with
  | Some _ => [spaces (leading_spaces line) +++ annotation +++ nl; line]
  | None => [line]
  end.

(** What [add_javadoc] puts in place of [last_line], the line above the
    annotations of the signature line [line]. *)
Definition with_javadoc (javadoc_type : string) (content : list string)
    (line last_line : string) : list string :=
  let indent := spaces (leading_spaces line) in
  if String.eqb (strip last_line) "*/" then
    javadoc_entries indent javadoc_type true content ++ [last_line]
  else
    [last_line; indent +++ "/**" +++ nl]
      ++ javadoc_entries indent javadoc_type true content
      ++ [indent +++ " */" +++ nl].

(** The lines of [with_javadoc] around the entries: those above them,
    and the closing line of the comment below them. *)
Definition javadoc_frame (line last_line : string) : list string * string :=
  let indent := spaces (leading_spaces line) in
  if String.eqb (strip last_line) "*/" then ([], last_line)
  else ([last_line; indent +++ "/**" +++ nl], indent +++ " */" +++ nl).






(** The number of lines of a file that satisfy [p]. *)
Definition count_lines (p : string -> bool) (file : string) : nat :=
  List.length (filter p (readlines file)).

(** ** The specification's sentences, as it words them *)

(** Delete: the block ends at the first later line whose trimmed content
    is a closing brace and whose leading whitespace is the Indent Prefix. *)
Definition delete_as_specified : Prop :=
  forall F S pre sig g body closer post,
    readlines F = pre ++ sig :: body ++ closer :: post ->
    plain S pre -> sig_match S sig = Some g ->
    plain S (body ++ closer :: post) ->
    Forall (fun l => Spec.is_closing_line g l = false) body ->
    Spec.is_closing_line g closer = true ->
    remove_method F S = write (pre ++ post).

(** Duplicate: every line of the copy has [before] replaced by [after]. *)
Definition duplicate_as_specified : Prop :=
  forall F S before after pre sig g body closer post,
    readlines F = pre ++ sig :: body ++ closer :: post ->
    plain S pre -> sig_match S sig = Some g ->
    plain S (body ++ closer :: post) ->
    open_under (g +++ "}") body -> prefix (g +++ "}") closer = true ->
    copy_and_rename_method F S before after
    = write (pre ++ (sig :: body ++ [closer]) ++ [nl]
               ++ map (replace before after) (sig :: body ++ [closer]) ++ post).

(** Unterminated block: every line of the file is in the output. *)
Definition unterminated_as_specified : Prop :=
  forall F S pre sig g rest,
    readlines F = pre ++ sig :: rest ->
    plain S pre -> sig_match S sig = Some g ->
    plain S rest -> open_under (g +++ "}") rest ->
    subseq (readlines F) (readlines (remove_method F S)).


(** Indent Prefix: the inserted line starts with the leading whitespace
    of the signature line, character by character. *)
Definition indent_as_specified : Prop :=
  forall F S annotation pre sig post,
    readlines F = pre ++ sig :: post ->
    plain S pre -> plain S post -> sig_matches S sig = true ->
    exists rest,
      annotate_method F S annotation
      = write (pre ++ (Spec.leading_whitespace sig +++ rest) :: sig :: post).

(** A closed block: a matching line, lines that neither match nor
    close, and the first line that starts with [match.group(1)] and a
    closing brace. *)
Definition closed_block (signature sig g : string) (body : list string)
    (closer : string) : Prop :=
  sig_match signature sig = Some g
  /\ plain signature body /\ open_under (g +++ "}") body
  /\ sig_match signature closer = None /\ prefix (g +++ "}") closer = true.


(** No match: every editor leaves the file with the content it had. *)
Definition no_op_as_specified : Prop :=
  forall F S before after javadoc_type annotation alternative content,
    plain S (readlines F) ->
    remove_method F S = F
    /\ copy_and_rename_method F S before after = F
    /\ add_javadoc F S javadoc_type content = Ok F
    /\ annotate_method F S annotation = F
    /\ deprecate_method F S alternative = Ok F.

(** Deprecate: with the signature present and its block closed, one
    call adds one documentation note and one marker, a second call adds
    both again. *)
Definition deprecate_as_specified : Prop :=
  forall F S note pre sig g body closer post,
    readlines F = pre ++ sig :: body ++ closer :: post ->
    plain S pre -> closed_block S sig g body closer -> plain S post ->
    exists once twice,
      deprecate_method F S note = Ok once
      /\ count_lines Spec.is_note once = count_lines Spec.is_note F + 1
      /\ count_lines Spec.is_marker once = count_lines Spec.is_marker F + 1
      /\ deprecate_method once S note = Ok twice
      /\ count_lines Spec.is_note twice = count_lines Spec.is_note F + 2
      /\ count_lines Spec.is_marker twice = count_lines Spec.is_marker F + 2.

(** ** Sample files *)

Definition ln (s : string) : string := s +++ nl.

(** The class of the docstrings. *)
Definition example_class : list string :=
  [ ln "class Example {";
    ln "    public void main(String[] args) {";
    ln "        System.out.println(1);";
    ln "    }";
    ln "";
    ln "    public String foo() {";
    ln "        return null;";
    ln "    }";
    ln "}" ].

Definition main_signature : string := "public void main(String[] args)".

(** A file of two lines that end with a carriage return and a line
    feed. *)
Definition crlf_file : string :=
  "a" +++ String CR nl +++ "b" +++ String CR nl.

(** ** More shapes *)

(** A text of whitespace only. *)
Fixpoint all_space (w : string) : bool :=
  match w with
  | "" => true
  | String c r => isspace c && all_space r
  end.

(** The number of lines of [ls] that match the signature. *)
Definition count_matches (signature : string) (ls : list string) : nat :=
  List.length (filter (sig_matches signature) ls).

(** [ls] holds a line that is no annotation line. *)
Definition anchored (ls : list string) : Prop :=
  Exists (fun l => is_annotation l = false) ls.

(** The first line of [fp] that matches the signature has nothing but
    annotation lines above it, up to the top. *)
Definition annotations_reach_top (signature : string) (fp : list string) : Prop :=
  exists an sig rest,
    fp = an ++ sig :: rest
    /\ plain signature an
    /\ Forall (fun l => is_annotation l = true) an
    /\ sig_matches signature sig = true.

(** The continuation lines of a comment, after the tagged one. *)
Definition continuation_lines (indent : string) (content : list string) : list string :=
  map (fun content_line => indent +++ " *   " +++ content_line +++ nl) content.

(** The text [s] with every character [a] turned into [b]. *)
Fixpoint translate (a b : ascii) (s : string) : string :=
  match s with
  | "" => ""
  | String c r => String (if Ascii.eqb c a then b else c) (translate a b r)
  end.

(** ** License headers *)

(** The class [\d] of [re] on one character, for code points below 256. *)
Definition isdigit (c : ascii) : bool :=
  let n := nat_of_ascii c in (48 <=? n) && (n <=? 57).

(** The items of a pattern that has neither alternatives nor
    repetitions of variable length: a literal character, or a digit. *)
Inductive atom : Set :=
| Lit (c : ascii)
| Digit.

Definition atom_matches (a : atom) (c : ascii) : bool :=
  match a with
  | Lit d => Ascii.eqb d c
  | Digit => isdigit c
  end.

(** [pattern.match(s)]: the pattern matches at the start of [s]. *)
Fixpoint match_here (pattern : list atom) (s : string) : bool :=
  match pattern with
  | [] => true
  | a :: pattern' =>
      match s with
      | "" => false
      | String c r => atom_matches a c && match_here pattern' r
      end
  end.

(** [pattern.search(s)]: the pattern matches somewhere in [s]. *)
Fixpoint search (pattern : list atom) (s : string) : bool :=
  match_here pattern s
  || match s with
     | "" => false
     | String _ r => search pattern r
     end.

(** The pattern of a literal text. *)
Fixpoint literal (s : string) : list atom :=
  match s with
  | "" => []
  | String c r => Lit c :: literal r
  end.

(** A star, the word Copyright, four digits and the name of the
    company, one space apart. *)
Definition HEADER_REGEX : list atom :=
  literal "* Copyright " ++ [Digit; Digit; Digit; Digit] ++ literal " Google LLC".

(** [for line in fp: if HEADER_REGEX.search(line): return True], then
    [return False]. *)
Definition _file_has_header (content : string) : bool :=
  existsb (search HEADER_REGEX) (readlines content).

(** The double quote, as a text of one character. *)
Definition dquote : string := String (ascii_of_nat 34) "".

Definition GOOD_LICENSE : string :=
  write
    [ ln "/*";
      ln " * Copyright 2020 Google LLC";
      ln " *";
      ln (" * Licensed under the Apache License, Version 2.0 (the "
          +++ dquote +++ "License" +++ dquote +++ ");");
      ln " * you may not use this file except in compliance with the License.";
      ln " * You may obtain a copy of the License at";
      ln " *";
      ln " *     https://www.apache.org/licenses/LICENSE-2.0";
      ln " *";
      ln " * Unless required by applicable law or agreed to in writing, software";
      ln (" * distributed under the License is distributed on an "
          +++ dquote +++ "AS IS" +++ dquote +++ " BASIS,");
      ln " * WITHOUT WARRANTIES OR CONDITIONS OF ANY KIND, either express or implied.";
      ln " * See the License for the specific language governing permissions and";
      ln " * limitations under the License.";
      ln " */" ].

(** ** Maven coordinates *)

Module Maven.

(** [s.split(sep)] for a separator of one character. *)
Fixpoint split (sep : ascii) (s : string) : list string :=
  match s with
  | "" => [""]
  | String c r =>
      if Ascii.eqb c sep then "" :: split sep r
      else match split sep r with
           | [] => [String c ""]
           | x :: xs => String c x :: xs
           end
  end.

(** [sep.join(parts)] *)
Fixpoint join (sep : string) (parts : list string) : string :=
  match parts with
  | [] => ""
  | x :: xs =>
      match xs with
      | [] => x
      | _ => x +++ sep +++ join sep xs
      end
  end.

(** [group_path] in [latest_maven_version]. *)
Definition group_path (group_id : string) : string :=
  join "/" (split "." group_id).

(** [url] in [latest_maven_version]. *)
Definition url (group_id artifact_id : string) : string :=
  "https://repo1.maven.org/maven2/" +++ group_path group_id +++ "/"
    +++ artifact_id +++ "/maven-metadata.xml".

End Maven.

(** ** Strings *)

Lemma append_nil_r (s : string) : s +++ "" = s.
Proof. induction s; simpl; congruence. Qed.

Lemma append_assoc (a b c : string) : (a +++ b) +++ c = a +++ b +++ c.
Proof. induction a; simpl; congruence. Qed.

Lemma append_length (a b : string) :
  String.length (a +++ b) = String.length a + String.length b.
Proof. induction a; simpl; congruence. Qed.

Lemma append_inv_head (a b c : string) : a +++ b = a +++ c -> b = c.
Proof. induction a; simpl; intros H; [assumption | injection H; auto]. Qed.

Lemma prefix_append (p s : string) : prefix p (p +++ s) = true.
Proof.
  induction p as [|c p IH]; simpl.
  - destruct s; reflexivity.
  - destruct (ascii_dec c c); [assumption | contradiction].
Qed.

Lemma prefix_nil (s : string) : prefix "" s = true.
Proof. destruct s; reflexivity. Qed.

Lemma prefix_cons (c d : ascii) (p s : string) :
  prefix (String c p) (String d s) = Ascii.eqb c d && prefix p s.
Proof.
  simpl. destruct (ascii_dec c d) as [->|n].
  - now rewrite Ascii.eqb_refl.
  - apply Ascii.eqb_neq in n. now rewrite n.
Qed.

Lemma prefix_spaces_append (n : nat) (s : string) : prefix (spaces n) (spaces n +++ s) = true.
Proof. apply prefix_append. Qed.

Lemma lstrip_spaces (n : nat) (s : string) : lstrip (spaces n +++ s) = lstrip s.
Proof. induction n; simpl; auto. Qed.

Lemma write_app (a b : list string) : write (a ++ b) = write a +++ write b.
Proof. induction a; simpl; [reflexivity | now rewrite IHa, append_assoc]. Qed.

Lemma write_length_app (a b : list string) :
  String.length (write (a ++ b)) = String.length (write a) + String.length (write b).
Proof. now rewrite write_app, append_length. Qed.

(** Writing back the lines of a text gives the text. *)
Lemma write_lines_of (text : string) : write (lines_of text) = text.
Proof.
  induction text as [|c r IH]; simpl; [reflexivity|].
  destruct (Ascii.eqb c LF); simpl; [now rewrite IH|].
  destruct (lines_of r) as [|l ls]; simpl in *; now rewrite <- IH.
Qed.

(** Writing back the lines read gives the text that was read: the file
    with its line endings turned into line feeds. *)
Lemma write_readlines (content : string) :
  write (readlines content) = universal_newlines content.
Proof. apply write_lines_of. Qed.

(** ** Line endings *)

Lemma no_cr_universal_newlines_from (after_cr : bool) (content : string) :
  no_cr (universal_newlines_from after_cr content) = true.
Proof.
  revert after_cr. induction content as [|c r IH]; intros after_cr; [reflexivity|].
  cbn [universal_newlines_from]. destruct (after_cr && Ascii.eqb c LF); [apply IH|].
  destruct (Ascii.eqb c CR) eqn:Ec; cbn [no_cr]; [|rewrite Ec]; simpl; apply IH.
Qed.

(** A text without carriage return is read as it is. *)
Lemma universal_newlines_no_cr (text : string) :
  no_cr text = true -> universal_newlines text = text.
Proof.
  unfold universal_newlines. induction text as [|c r IH]; [reflexivity|].
  cbn [no_cr universal_newlines_from andb]. intros H.
  apply andb_prop in H as [Hc Hr]. apply negb_true_iff in Hc.
  rewrite Hc. now rewrite IH.
Qed.

Lemma universal_newlines_idem (content : string) :
  universal_newlines (universal_newlines content) = universal_newlines content.
Proof. apply universal_newlines_no_cr, no_cr_universal_newlines_from. Qed.

Lemma no_cr_append (a b : string) : no_cr (a +++ b) = no_cr a && no_cr b.
Proof. induction a; simpl; [reflexivity | now rewrite IHa, andb_assoc]. Qed.

Lemma no_cr_full_line (l : string) : is_full_line l = true -> no_cr l = true.
Proof.
  induction l as [|c r IH]; [discriminate|]. cbn [is_full_line no_cr].
  destruct (Ascii.eqb c LF) eqn:Ec.
  - intros H. apply String.eqb_eq in H. subst r.
    apply Ascii.eqb_eq in Ec. subst c. reflexivity.
  - intros H. apply andb_prop in H as [Hc Hr]. now rewrite Hc, IH.
Qed.

Lemma no_cr_no_newline (l : string) : no_newline l = true -> no_cr l = true.
Proof.
  induction l as [|c r IH]; [reflexivity|]. cbn [no_newline no_cr]. intros H.
  apply andb_prop in H as [H Hr]. apply andb_prop in H as [_ Hc].
  now rewrite Hc, IH.
Qed.

(** ** Reading back what was written *)

Lemma file_lines_cons (l : string) (ls : list string) :
  is_full_line l = true -> file_lines ls -> file_lines (l :: ls).
Proof. intros Hl Hls. destruct ls; simpl; auto. Qed.

Lemma file_lines_app (a : list string) (b : string) (bs : list string) :
  file_lines (a ++ b :: bs) <->
  Forall (fun l => is_full_line l = true) a /\ file_lines (b :: bs).
Proof.
  induction a as [|x a IH].
  - simpl; split; [intros H; split; [constructor | exact H] | intros [_ H]; exact H].
  - change ((x :: a) ++ b :: bs) with (x :: (a ++ b :: bs)). split.
    + intros H. assert (Hx : is_full_line x = true /\ file_lines (a ++ b :: bs)).
      { simpl in H. destruct (a ++ b :: bs) eqn:E; [destruct a; discriminate | exact H]. }
      destruct Hx as [Hx Hr]. apply IH in Hr as [Ha Hb]. split; [constructor|]; assumption.
    + intros [Ha Hb]. inversion Ha; subst. apply file_lines_cons; [assumption|].
      apply IH; split; assumption.
Qed.

Lemma file_lines_lines_of (text : string) :
  no_cr text = true -> file_lines (lines_of text).
Proof.
  induction text as [|c r IH]; [intros _; exact I|].
  cbn [no_cr]. intros H. apply andb_prop in H as [Hc Hr]. specialize (IH Hr).
  simpl lines_of. destruct (Ascii.eqb c LF) eqn:Ec.
  - apply file_lines_cons; [simpl; now rewrite Ec | exact IH].
  - destruct (lines_of r) as [|l ls].
    + simpl. right. split; [discriminate | now rewrite Ec, Hc].
    + simpl in *. rewrite Ec, Hc. destruct ls; [|exact IH].
      destruct IH as [H|[H1 H2]]; [left; exact H | right].
      split; [discriminate | simpl; exact H2].
Qed.

(** The lines read are lines of a file: no carriage return is left. *)
Lemma file_lines_readlines (content : string) : file_lines (readlines content).
Proof. apply file_lines_lines_of, no_cr_universal_newlines_from. Qed.

Lemma lines_of_full (l rest : string) :
  is_full_line l = true -> lines_of (l +++ rest) = l :: lines_of rest.
Proof.
  induction l as [|c r IH]; simpl; [discriminate|].
  destruct (Ascii.eqb c LF).
  - intros H. apply String.eqb_eq in H. subst r. reflexivity.
  - intros H. apply andb_prop in H as [_ H]. now rewrite (IH H).
Qed.

Lemma lines_of_partial (l : string) :
  l <> "" -> no_newline l = true -> lines_of l = [l].
Proof.
  induction l as [|c r IH]; [congruence|]. intros _ H. simpl in H.
  apply andb_prop in H as [Hc Hr]. apply andb_prop in Hc as [Hc _].
  apply negb_true_iff in Hc.
  simpl. rewrite Hc. destruct r as [|d r']; [reflexivity|].
  rewrite IH; [reflexivity | discriminate | exact Hr].
Qed.

Lemma lines_of_write (ls : list string) : file_lines ls -> lines_of (write ls) = ls.
Proof.
  induction ls as [|l ls IH]; [reflexivity|]. intros H.
  destruct ls as [|l' ls'].
  - simpl in *. rewrite append_nil_r. destruct H as [H|[H1 H2]].
    + rewrite <- (append_nil_r l) at 1. now rewrite lines_of_full.
    + now apply lines_of_partial.
  - destruct H as [Hl Hr]. change (write (l :: l' :: ls')) with (l +++ write (l' :: ls')).
    rewrite lines_of_full by assumption. now rewrite IH.
Qed.

Lemma no_cr_write (ls : list string) : file_lines ls -> no_cr (write ls) = true.
Proof.
  induction ls as [|l ls IH]; [reflexivity|]. intros H.
  cbn [write]. rewrite no_cr_append. destruct ls as [|l' ls'].
  - simpl in H. destruct H as [H|[_ H]];
      [rewrite no_cr_full_line | rewrite no_cr_no_newline]; auto.
  - destruct H as [Hl Hr]. now rewrite no_cr_full_line, IH.
Qed.

(** A file whose lines are [ls] is read back as [ls]. *)
Lemma readlines_write (ls : list string) : file_lines ls -> readlines (write ls) = ls.
Proof.
  intros H. unfold readlines.
  rewrite universal_newlines_no_cr by now apply no_cr_write.
  now apply lines_of_write.
Qed.

(** The text that was read is read as it is. *)
Lemma readlines_universal_newlines (content : string) :
  readlines (universal_newlines content) = readlines content.
Proof.
  rewrite <- write_readlines. apply readlines_write, file_lines_readlines.
Qed.

Lemma no_newline_append (a b : string) :
  no_newline (a +++ b) = no_newline a && no_newline b.
Proof. induction a; simpl; [reflexivity | now rewrite IHa, !andb_assoc]. Qed.

Lemma no_newline_spaces (n : nat) : no_newline (spaces n) = true.
Proof. induction n; simpl; auto. Qed.

Lemma is_full_line_nl (s : string) : no_newline s = true -> is_full_line (s +++ nl) = true.
Proof.
  induction s as [|c r IH]; simpl; [reflexivity|].
  intros H. apply andb_prop in H as [Hc Hr]. apply andb_prop in Hc as [Hc Hd].
  apply negb_true_iff in Hc. rewrite Hc, Hd. auto.
Qed.

Lemma no_newline_splitlines (s : string) (after_cr : bool) :
  Forall (fun l => no_newline l = true) (splitlines_from after_cr s).
Proof.
  revert after_cr. induction s as [|c r IH]; intros after_cr; simpl; [constructor|].
  destruct (after_cr && Ascii.eqb c LF); [apply IH|].
  destruct (is_linebreak c) eqn:Eb; [constructor; [reflexivity | apply IH]|].
  assert (Hc : Ascii.eqb c LF = false).
  { destruct (Ascii.eqb c LF) eqn:E; [|reflexivity].
    apply Ascii.eqb_eq in E. subst c. discriminate. }
  assert (Hd : Ascii.eqb c CR = false).
  { destruct (Ascii.eqb c CR) eqn:E; [|reflexivity].
    apply Ascii.eqb_eq in E. subst c. discriminate. }
  specialize (IH false). destruct (splitlines_from false r) as [|l ls].
  - constructor; [simpl; now rewrite Hc, Hd | constructor].
  - inversion IH; subst. constructor; [simpl; now rewrite Hc, Hd | assumption].
Qed.

(** ** The loops, segment by segment *)

Section Loops.

Variable signature : string.

Lemma plain_app (a b : list string) :
  plain signature (a ++ b) <-> plain signature a /\ plain signature b.
Proof. apply Forall_app. Qed.

Lemma plain_cons (l : string) (ls : list string) :
  plain signature (l :: ls) <-> sig_match signature l = None /\ plain signature ls.
Proof. apply Forall_cons_iff. Qed.

(** Outside a block, lines that do not match are kept. *)
Lemma remove_method_loop_plain (p fp lines : list string) :
  plain signature p ->
  remove_method_loop signature None lines (p ++ fp)
  = remove_method_loop signature None (lines ++ p) fp.
Proof.
  revert lines. induction p as [|l p IH]; intros lines Hp; simpl.
  - now rewrite app_nil_r.
  - apply plain_cons in Hp as [Hl Hp]. rewrite Hl, IH by assumption.
    now rewrite <- app_assoc.
Qed.

(** Inside a block, lines that neither match nor close are dropped. *)
Lemma remove_method_loop_body (closing : string) (b fp lines : list string) :
  plain signature b -> open_under closing b ->
  remove_method_loop signature (Some closing) lines (b ++ fp)
  = remove_method_loop signature (Some closing) lines fp.
Proof.
  induction b as [|l b IH]; intros Hp Ho; simpl; [reflexivity|].
  apply plain_cons in Hp as [Hl Hp]. inversion Ho; subst.
  rewrite Hl. match goal with H : prefix _ _ = false |- _ => rewrite H end.
  now apply IH.
Qed.

(** A whole closed block is dropped, whatever the state before it. *)
Lemma remove_method_loop_block (st : option string) (sig g : string)
    (body : list string) (closer : string) (fp lines : list string) :
  sig_match signature sig = Some g ->
  plain signature body -> open_under (g +++ "}") body ->
  sig_match signature closer = None -> prefix (g +++ "}") closer = true ->
  remove_method_loop signature st lines (sig :: body ++ closer :: fp)
  = remove_method_loop signature None lines fp.
Proof.
  intros Hs Hb Ho Hc Hp. simpl. rewrite Hs.
  rewrite remove_method_loop_body by assumption. simpl. now rewrite Hc, Hp.
Qed.

Variables before after : string.

Lemma copy_and_rename_loop_plain (p fp lines method : list string) :
  plain signature p ->
  copy_and_rename_loop signature before after None lines method (p ++ fp)
  = copy_and_rename_loop signature before after None (lines ++ p) method fp.
Proof.
  revert lines. induction p as [|l p IH]; intros lines Hp; simpl.
  - now rewrite app_nil_r.
  - apply plain_cons in Hp as [Hl Hp]. rewrite Hl, IH by assumption.
    now rewrite <- app_assoc.
Qed.

Lemma copy_and_rename_loop_body (closing : string) (b fp lines method : list string) :
  plain signature b -> open_under closing b ->
  copy_and_rename_loop signature before after (Some closing) lines method (b ++ fp)
  = copy_and_rename_loop signature before after (Some closing)
      (lines ++ b) (method ++ b) fp.
Proof.
  revert lines method. induction b as [|l b IH]; intros lines method Hp Ho; simpl.
  - now rewrite !app_nil_r.
  - apply plain_cons in Hp as [Hl Hp]. inversion Ho; subst.
    rewrite Hl. match goal with H : prefix _ _ = false |- _ => rewrite H end.
    rewrite IH by assumption. now rewrite <- !app_assoc.
Qed.

(** A closed block is kept, then a blank line and the [method] buffer
    follow it: what the buffer held before, then the block with its
    signature line renamed. *)
Lemma copy_and_rename_loop_block (st : option string) (sig g : string)
    (body : list string) (closer : string) (fp lines method : list string) :
  sig_match signature sig = Some g ->
  plain signature body -> open_under (g +++ "}") body ->
  sig_match signature closer = None -> prefix (g +++ "}") closer = true ->
  copy_and_rename_loop signature before after st lines method
    (sig :: body ++ closer :: fp)
  = copy_and_rename_loop signature before after None
      (lines ++ (sig :: body ++ [closer]) ++ [nl]
         ++ method ++ (replace before after sig :: body ++ [closer]))
      (method ++ (replace before after sig :: body ++ [closer])) fp.
Proof.
  intros Hs Hb Ho Hc Hp. simpl. rewrite Hs.
  rewrite copy_and_rename_loop_body by assumption. simpl. rewrite Hc, Hp.
  f_equal; simpl; repeat (rewrite <- ?app_assoc; simpl); reflexivity.
Qed.

(** Inside a block that never closes every line is kept. *)
Lemma copy_and_rename_loop_open (closing : string) (b lines method : list string) :
  plain signature b -> open_under closing b ->
  copy_and_rename_loop signature before after (Some closing) lines method b
  = lines ++ b.
Proof.
  intros Hp Ho. rewrite <- (app_nil_r b) at 1.
  now rewrite copy_and_rename_loop_body.
Qed.

End Loops.

Section Insertions.

Variable signature : string.

(** [annotate_method] rewrites the file line by line. *)
Lemma annotate_method_loop_flat_map (annotation : string) (fp lines : list string) :
  annotate_method_loop signature annotation lines fp
  = lines ++ flat_map (annotated signature annotation) fp.
Proof.
  revert lines. induction fp as [|l fp IH]; intros lines; simpl.
  - now rewrite app_nil_r.
  - unfold annotated at 1. destruct (sig_match signature l); rewrite IH;
      repeat (rewrite <- ?app_assoc; simpl); reflexivity.
Qed.

Lemma flat_map_annotated_plain (annotation : string) (p : list string) :
  plain signature p -> flat_map (annotated signature annotation) p = p.
Proof.
  induction p as [|l p IH]; intros Hp; simpl; [reflexivity|].
  apply Forall_cons_iff in Hp as [Hl Hp]. unfold annotated at 1.
  rewrite Hl. simpl. now rewrite IH.
Qed.

Lemma collect_annotations_eq (rev_lines annotations : list string) (last_line : string) :
  collect_annotations rev_lines annotations last_line
  = if is_annotation last_line then
      match rev_lines with
      | [] => Raise IndexError
      | x :: r => collect_annotations r (annotations ++ [last_line]) x
      end
    else Ok (last_line, rev_lines, annotations).
Proof. destruct rev_lines; reflexivity. Qed.

(** Walking up through a run of annotation lines (held in reverse, the
    lowest first) stops at the line above them. *)
Lemma collect_annotations_run (ran : list string) (x last : string)
    (rbase annotations : list string) :
  Forall (fun l => is_annotation l = true) (x :: ran) ->
  is_annotation last = false ->
  collect_annotations (ran ++ last :: rbase) annotations x
  = Ok (last, rbase, annotations ++ x :: ran).
Proof.
  revert x annotations. induction ran as [|y ran IH]; intros x annotations Ha Hl.
  - inversion Ha; subst. rewrite collect_annotations_eq.
    match goal with H : is_annotation x = true |- _ => rewrite H end.
    cbn [app]. rewrite collect_annotations_eq, Hl. reflexivity.
  - inversion Ha; subst. rewrite collect_annotations_eq.
    match goal with H : is_annotation x = true |- _ => rewrite H end.
    cbn [app]. rewrite IH by assumption. now rewrite <- app_assoc.
Qed.

(** Walking up through nothing but annotation lines runs off the top. *)
Lemma collect_annotations_top (ran : list string) (x : string) (annotations : list string) :
  Forall (fun l => is_annotation l = true) (x :: ran) ->
  collect_annotations ran annotations x = Raise IndexError.
Proof.
  revert x annotations. induction ran as [|y ran IH]; intros x annotations Ha;
    inversion Ha; subst; rewrite collect_annotations_eq;
    match goal with H : is_annotation x = true |- _ => rewrite H end;
    [reflexivity | now apply IH].
Qed.

Variable javadoc_type : string.
Variable content : list string.

(** The edit at a matching line, when a line that is no annotation
    stands above the annotations [an]. *)
Lemma add_javadoc_match_above (line last : string) (base an annotations : list string) :
  Forall (fun l => is_annotation l = true) an ->
  is_annotation last = false ->
  add_javadoc_match javadoc_type content line (base ++ last :: an) annotations
  = Ok (base ++ with_javadoc javadoc_type content line last ++ an ++ rev annotations,
        annotations ++ rev an).
Proof.
  intros Ha Hl. unfold add_javadoc_match.
  rewrite rev_app_distr. simpl rev.
  assert (Hr : Forall (fun l => is_annotation l = true) (rev an))
    by (apply Forall_rev; exact Ha).
  destruct (rev an) as [|x ran] eqn:E.
  - assert (an = []) by (apply (f_equal (@rev string)) in E;
      rewrite rev_involutive in E; exact E). subst an.
    simpl. rewrite collect_annotations_eq, Hl. simpl.
    rewrite rev_involutive, app_nil_r. unfold with_javadoc.
    destruct (strip last =? "*/")%string;
      repeat (rewrite <- ?app_assoc; simpl); reflexivity.
  - assert (Ean : an = rev ran ++ [x]) by (apply (f_equal (@rev string)) in E;
      rewrite rev_involutive in E; exact E).
    rewrite <- app_assoc. simpl.
    rewrite collect_annotations_run by assumption. simpl bind.
    rewrite rev_involutive, rev_app_distr. simpl rev. rewrite <- Ean.
    unfold with_javadoc.
    destruct (strip last =? "*/")%string;
      repeat (rewrite <- ?app_assoc; simpl); reflexivity.
Qed.

Lemma add_javadoc_loop_plain (p fp lines annotations : list string) :
  plain signature p ->
  add_javadoc_loop signature javadoc_type content lines annotations (p ++ fp)
  = add_javadoc_loop signature javadoc_type content (lines ++ p) annotations fp.
Proof.
  revert lines. induction p as [|l p IH]; intros lines Hp; simpl.
  - now rewrite app_nil_r.
  - apply Forall_cons_iff in Hp as [Hl Hp]. rewrite Hl, IH by assumption.
    now rewrite <- app_assoc.
Qed.

(** One matching line with a documented or undocumented line above its
    annotations, in the middle of the loop. *)
Lemma add_javadoc_loop_match (sig last : string) (base an annotations fp : list string) :
  sig_matches signature sig = true ->
  Forall (fun l => is_annotation l = true) an ->
  is_annotation last = false ->
  add_javadoc_loop signature javadoc_type content (base ++ last :: an) annotations
    (sig :: fp)
  = add_javadoc_loop signature javadoc_type content
      (base ++ with_javadoc javadoc_type content sig last ++ an ++ rev annotations
         ++ [sig])
      (annotations ++ rev an) fp.
Proof.
  intros Hs Ha Hl. unfold sig_matches in Hs. simpl.
  destruct (sig_match signature sig); [|discriminate].
  rewrite add_javadoc_match_above by assumption. simpl.
  now rewrite <- !app_assoc.
Qed.

(** The file with one matching line. *)
Lemma add_javadoc_lines_one (sig last : string) (base an post : list string) :
  plain signature (base ++ last :: an) -> plain signature post ->
  sig_matches signature sig = true ->
  Forall (fun l => is_annotation l = true) an ->
  is_annotation last = false ->
  add_javadoc_lines signature javadoc_type content (base ++ last :: an ++ sig :: post)
  = Ok (base ++ with_javadoc javadoc_type content sig last ++ an ++ sig :: post).
Proof.
  intros Hp Hq Hs Ha Hl. unfold add_javadoc_lines.
  change (base ++ last :: an ++ sig :: post)
    with (base ++ (last :: an) ++ sig :: post).
  rewrite app_assoc, add_javadoc_loop_plain by assumption. simpl app at 1.
  rewrite add_javadoc_loop_match by assumption.
  rewrite <- (app_nil_r post) at 1.
  rewrite add_javadoc_loop_plain by assumption. simpl.
  f_equal. repeat (rewrite <- ?app_assoc; simpl). reflexivity.
Qed.

End Insertions.

(** ** The comment that add_javadoc writes *)

Lemma lstrip_length (s : string) : String.length (lstrip s) <= String.length s.
Proof. induction s as [|c r IH]; simpl; [|destruct (isspace c); simpl]; lia. Qed.

(** [leading_spaces] counts the characters of the leading whitespace. *)
Lemma leading_spaces_length (line : string) :
  leading_spaces line = String.length (Spec.leading_whitespace line).
Proof.
  unfold leading_spaces. induction line as [|c r IH]; [reflexivity|].
  cbn [lstrip Spec.leading_whitespace]. destruct (isspace c); cbn [String.length].
  - rewrite <- IH. pose proof (lstrip_length r). lia.
  - lia.
Qed.

(** After the first line, the loop writes continuation lines. *)
Lemma javadoc_entries_rest (indent javadoc_type : string) (content : list string) :
  javadoc_entries indent javadoc_type false content
  = map (fun content_line => indent +++ " *   " +++ content_line +++ nl) content.
Proof. induction content as [|c content IH]; simpl; [reflexivity | now rewrite IH]. Qed.

(** The loop over the content writes the tagged line and the
    continuation lines. *)
Lemma javadoc_entries_tagged (n : nat) (javadoc_type : string) (content : list string) :
  javadoc_entries (spaces n) javadoc_type true content
  = Spec.tagged_lines n javadoc_type content.
Proof.
  destruct content as [|c content]; [reflexivity|].
  cbn [javadoc_entries Spec.tagged_lines]. now rewrite javadoc_entries_rest.
Qed.

Lemma with_javadoc_documented (javadoc_type : string) (content : list string)
    (line last : string) :
  with_javadoc javadoc_type content line last
  = Spec.documented (String.length (Spec.leading_whitespace line)) javadoc_type
      content last.
Proof.
  unfold with_javadoc, Spec.documented.
  now rewrite leading_spaces_length, javadoc_entries_tagged.
Qed.

(** [add_javadoc] on a file with one matching line and a line that is
    no annotation above its annotations. *)
Lemma add_javadoc_one (F S javadoc_type sig last : string)
    (content base an post : list string) :
  readlines F = base ++ last :: an ++ sig :: post ->
  plain S (base ++ last :: an) -> plain S post ->
  sig_matches S sig = true ->
  Forall (fun l => is_annotation l = true) an ->
  is_annotation last = false ->
  add_javadoc F S javadoc_type content
  = Ok (write (base
                 ++ Spec.documented (String.length (Spec.leading_whitespace sig))
                      javadoc_type content last
                 ++ an ++ sig :: post)).
Proof.
  intros HF Hp Hq Hs Ha Hl. unfold add_javadoc. rewrite HF.
  rewrite add_javadoc_lines_one by assumption.
  now rewrite with_javadoc_documented.
Qed.

(** [annotate_method] writes, above every matching line, as many spaces
    as the line has leading whitespace characters, the annotation and a
    line feed. *)
Lemma annotate_method_flat_map (F S annotation : string) :
  annotate_method F S annotation
  = write (flat_map
             (fun line =>
                if sig_matches S line
                then [spaces (String.length (Spec.leading_whitespace line))
                        +++ annotation +++ nl; line]
                else [line])
             (readlines F)).
Proof.
  unfold annotate_method, annotate_method_lines.
  rewrite annotate_method_loop_flat_map. cbn [app]. f_equal.
  induction (readlines F) as [|l ls IH]; [reflexivity|].
  cbn [flat_map]. rewrite IH. f_equal.
  unfold annotated, sig_matches. rewrite leading_spaces_length.
  now destruct (sig_match S l).
Qed.

(** ** Checking concrete files *)

Ltac check_lines :=
  unfold closed_block, plain, open_under;
  repeat first [ reflexivity | split | apply Forall_nil | apply Forall_cons ].

(** Discharges the premises of [H] on a concrete file. *)
Ltac check_premises H :=
  repeat match type of H with
         | ?A -> _ =>
             let a := fresh in
             assert (a : A) by check_lines; specialize (H a); clear a
         end.

(** ** remove_method *)

Lemma remove_method_lines_block (S sig g closer : string) (pre body post : list string) :
  plain S pre -> closed_block S sig g body closer -> plain S post ->
  remove_method_lines S (pre ++ sig :: body ++ closer :: post) = pre ++ post.
Proof.
  intros Hpre (Hs & Hb & Ho & Hc & Hp) Hpost. unfold remove_method_lines.
  rewrite remove_method_loop_plain by assumption.
  rewrite (remove_method_loop_block S None sig g) by assumption.
  rewrite <- (app_nil_r post) at 1.
  now rewrite remove_method_loop_plain.
Qed.

(** C1 (amended): when the signature matches exactly one line and a
    later line starts with the Indent Prefix immediately followed by a
    closing brace, [remove_method] removes exactly the lines from the
    matching line through the first such line, and every other line is
    written back as it was read (its line ending a line feed) and in
    order. *)
Theorem remove_method_removes_block (F S sig g closer : string)
    (pre body post : list string) :
  readlines F = pre ++ sig :: body ++ closer :: post ->
  plain S pre -> closed_block S sig g body closer -> plain S post ->
  remove_method F S = write (pre ++ post).
Proof.
  intros HF Hpre Hb Hpost. unfold remove_method. rewrite HF.
  now rewrite (remove_method_lines_block S sig g closer).
Qed.

Lemma remove_method_removes_block_witness :
  remove_method (write example_class) main_signature
  = write [ ln "class Example {"; ln "";
            ln "    public String foo() {"; ln "        return null;";
            ln "    }"; ln "}" ].
Proof.
  apply (remove_method_removes_block (write example_class) main_signature
           (ln "    public void main(String[] args) {") "    " (ln "    }")
           [ln "class Example {"] [ln "        System.out.println(1);"]
           [ ln ""; ln "    public String foo() {"; ln "        return null;";
             ln "    }"; ln "}" ]);
    check_lines.
Defined.

(** C1 (as stated) fails: a line that starts with the Indent Prefix and
    a closing brace but goes on closes the block before the line that
    holds the brace alone. *)
Lemma delete_as_specified_fails : ~ delete_as_specified.
Proof.
  intros H.
  specialize (H (write [ln "f() {"; ln "} else {"; ln "}"; ln "x"]) "f()"
                [] (ln "f() {") "" [ln "} else {"] (ln "}") [ln "x"]).
  assert (E : remove_method (write [ln "f() {"; ln "} else {"; ln "}"; ln "x"]) "f()"
              = write [ln "x"]) by (apply H; check_lines).
  vm_compute in E. discriminate E.
Qed.

(** ** copy_and_rename_method *)

Lemma copy_and_rename_lines_block (S before after sig g closer : string)
    (pre body post : list string) :
  plain S pre -> closed_block S sig g body closer -> plain S post ->
  copy_and_rename_lines S before after (pre ++ sig :: body ++ closer :: post)
  = pre ++ (sig :: body ++ [closer]) ++ [nl]
      ++ renamed_block before after sig body closer ++ post.
Proof.
  intros Hpre (Hs & Hb & Ho & Hc & Hp) Hpost. unfold copy_and_rename_lines.
  rewrite copy_and_rename_loop_plain by assumption.
  rewrite (copy_and_rename_loop_block S before after None sig g) by assumption.
  rewrite <- (app_nil_r post) at 1.
  rewrite copy_and_rename_loop_plain by assumption. simpl.
  unfold renamed_block. repeat (rewrite <- ?app_assoc; simpl). reflexivity.
Qed.

(** C2 (amended): when the signature matches exactly one line and its
    block is closed by a line that ends with a line feed, one run of
    [copy_and_rename_method] writes the lines of the block as they were
    read at their place, then exactly one blank line, then a copy of the
    block in which every occurrence of [before] in the signature line
    is replaced by [after]; the other lines of the copy are those of
    the block, unchanged. *)
Theorem copy_and_rename_method_copies_block (F S before after sig g closer : string)
    (pre body post : list string) :
  readlines F = pre ++ sig :: body ++ closer :: post ->
  plain S pre -> closed_block S sig g body closer -> plain S post ->
  is_full_line closer = true ->
  copy_and_rename_method F S before after
  = write (pre ++ (sig :: body ++ [closer]) ++ [nl]
             ++ (replace before after sig :: body ++ [closer]) ++ post).
Proof.
  intros HF Hpre Hb Hpost _. unfold copy_and_rename_method. rewrite HF.
  now rewrite (copy_and_rename_lines_block S before after sig g closer).
Qed.

Lemma copy_and_rename_method_copies_block_witness :
  copy_and_rename_method (write example_class) main_signature "main" "foo1"
  = write [ ln "class Example {";
            ln "    public void main(String[] args) {";
            ln "        System.out.println(1);";
            ln "    }";
            nl;
            ln "    public void foo1(String[] args) {";
            ln "        System.out.println(1);";
            ln "    }";
            ln ""; ln "    public String foo() {"; ln "        return null;";
            ln "    }"; ln "}" ].
Proof.
  apply (copy_and_rename_method_copies_block (write example_class) main_signature
           "main" "foo1"
           (ln "    public void main(String[] args) {") "    " (ln "    }")
           [ln "class Example {"] [ln "        System.out.println(1);"]
           [ ln ""; ln "    public String foo() {"; ln "        return null;";
             ln "    }"; ln "}" ]);
    check_lines.
Defined.

(** C2 (as stated) fails: an occurrence of [before] in the body of the
    block is not replaced in the copy. *)
Lemma duplicate_as_specified_fails : ~ duplicate_as_specified.
Proof.
  intros H.
  specialize (H (write [ln "f() {"; ln "  x = f();"; ln "}"]) "f()" "f" "g"
                [] (ln "f() {") "" [ln "  x = f();"] (ln "}") []).
  assert (E : copy_and_rename_method
                (write [ln "f() {"; ln "  x = f();"; ln "}"]) "f()" "f" "g"
              = write ([] ++ (ln "f() {" :: [ln "  x = f();"] ++ [ln "}"]) ++ [nl]
                   ++ map (replace "f" "g") (ln "f() {" :: [ln "  x = f();"] ++ [ln "}"])
                   ++ []))
    by (apply H; check_lines).
  vm_compute in E. discriminate E.
Qed.

(** ** A signature that matches no line *)

Lemma add_javadoc_lines_plain (S javadoc_type : string) (content fp : list string) :
  plain S fp -> add_javadoc_lines S javadoc_type content fp = Ok fp.
Proof.
  intros Hp. unfold add_javadoc_lines. rewrite <- (app_nil_r fp) at 1.
  now rewrite add_javadoc_loop_plain.
Qed.

Lemma annotate_method_plain (F S annotation : string) :
  plain S (readlines F) -> annotate_method F S annotation = universal_newlines F.
Proof.
  intros Hp. unfold annotate_method, annotate_method_lines.
  rewrite annotate_method_loop_flat_map, flat_map_annotated_plain by assumption.
  apply write_readlines.
Qed.

Lemma add_javadoc_plain (F S javadoc_type : string) (content : list string) :
  plain S (readlines F) ->
  add_javadoc F S javadoc_type content = Ok (universal_newlines F).
Proof.
  intros Hp. unfold add_javadoc. rewrite add_javadoc_lines_plain by assumption.
  simpl. now rewrite write_readlines.
Qed.

(** C3 (amended): when the signature matches no line of the file, none
    of the five editors raises, and each writes back the text it read:
    the file with every carriage return, and the line feed that may
    follow it, turned into one line feed.  That is the file as it was
    when it holds no carriage return. *)
Theorem no_match_is_noop (F S before after javadoc_type annotation alternative : string)
    (content : list string) :
  plain S (readlines F) ->
  remove_method F S = universal_newlines F
  /\ copy_and_rename_method F S before after = universal_newlines F
  /\ add_javadoc F S javadoc_type content = Ok (universal_newlines F)
  /\ annotate_method F S annotation = universal_newlines F
  /\ deprecate_method F S alternative = Ok (universal_newlines F)
  /\ (no_cr F = true -> universal_newlines F = F).
Proof.
  intros Hp. repeat split.
  - unfold remove_method, remove_method_lines.
    rewrite <- (app_nil_r (readlines F)) at 1.
    rewrite remove_method_loop_plain by assumption. apply write_readlines.
  - unfold copy_and_rename_method, copy_and_rename_lines.
    rewrite <- (app_nil_r (readlines F)) at 1.
    rewrite copy_and_rename_loop_plain by assumption. apply write_readlines.
  - now apply add_javadoc_plain.
  - now apply annotate_method_plain.
  - unfold deprecate_method. rewrite add_javadoc_plain by assumption. simpl.
    rewrite annotate_method_plain; [now rewrite universal_newlines_idem|].
    now rewrite readlines_universal_newlines.
  - apply universal_newlines_no_cr.
Qed.

Lemma no_match_is_noop_witness :
  remove_method (write example_class) "public void bar()" = write example_class
  /\ copy_and_rename_method (write example_class) "public void bar()" "bar" "baz"
     = write example_class
  /\ add_javadoc (write example_class) "public void bar()" "deprecated" ["Use foo."]
     = Ok (write example_class)
  /\ annotate_method (write example_class) "public void bar()" "@Deprecated"
     = write example_class
  /\ deprecate_method (write example_class) "public void bar()" "Use foo."
     = Ok (write example_class)
  /\ (no_cr (write example_class) = true
      -> universal_newlines (write example_class) = write example_class).
Proof.
  apply (no_match_is_noop (write example_class) "public void bar()" "bar" "baz"
           "deprecated" "@Deprecated" "Use foo." ["Use foo."]).
  check_lines.
Defined.

(** C3 (as stated) fails: a file whose lines end with a carriage return
    and a line feed is written back with line feeds only. *)
Lemma no_op_as_specified_fails : ~ no_op_as_specified.
Proof.
  intros H.
  destruct (H crlf_file "zzz" "z" "y" "deprecated" "@Deprecated" "Use foo." ["Use foo."])
    as [E _]; [check_lines|].
  vm_compute in E. discriminate E.
Qed.

(** ** Lines that are kept *)

Lemma subseq_refl {A : Type} (l : list A) : subseq l l.
Proof. induction l; constructor; assumption. Qed.

Lemma subseq_nil_l {A : Type} (l : list A) : subseq [] l.
Proof. induction l; constructor; assumption. Qed.

Lemma subseq_app {A : Type} (a a' b b' : list A) :
  subseq a a' -> subseq b b' -> subseq (a ++ b) (a' ++ b').
Proof. intros Ha Hb. induction Ha; simpl; try constructor; assumption. Qed.

Lemma subseq_trans {A : Type} (a b c : list A) :
  subseq a b -> subseq b c -> subseq a c.
Proof.
  intros Hab Hbc. revert a Hab. induction Hbc; intros a Hab.
  - exact Hab.
  - constructor. now apply IHHbc.
  - inversion Hab; subst; constructor; now apply IHHbc.
Qed.

Lemma subseq_skip_l {A : Type} (z a b : list A) : subseq a b -> subseq a (z ++ b).
Proof. intros H. induction z; simpl; [|constructor]; assumption. Qed.

Lemma subseq_skip_r {A : Type} (z a b : list A) : subseq a b -> subseq a (b ++ z).
Proof.
  intros H. rewrite <- (app_nil_r a). apply subseq_app; [exact H | apply subseq_nil_l].
Qed.

(** What the walk upwards popped is the line it stops at and the
    annotation lines it collected. *)
Lemma collect_annotations_inv (r annotations : list string) (x last : string)
    (r' annotations' : list string) :
  collect_annotations r annotations x = Ok (last, r', annotations') ->
  exists X, annotations' = annotations ++ X
            /\ rev r ++ [x] = rev r' ++ last :: rev X.
Proof.
  revert annotations x. induction r as [|y r IH]; intros annotations x H;
    rewrite collect_annotations_eq in H; destruct (is_annotation x).
  - discriminate H.
  - injection H as <- <- <-. exists []. now rewrite app_nil_r.
  - apply IH in H as (X & -> & E). exists (x :: X). split.
    + now rewrite <- app_assoc.
    + simpl. rewrite E, <- app_assoc. reflexivity.
  - injection H as <- <- <-. exists []. now rewrite app_nil_r.
Qed.

Lemma add_javadoc_match_subseq (javadoc_type line : string)
    (content lines annotations lines' annotations' : list string) :
  add_javadoc_match javadoc_type content line lines annotations
  = Ok (lines', annotations') ->
  subseq lines lines'.
Proof.
  unfold add_javadoc_match. intros H.
  destruct (rev lines) as [|x r] eqn:E; [discriminate H|]. simpl in H.
  destruct (collect_annotations r annotations x) as [[[last r'] A']|] eqn:C;
    [|discriminate H].
  apply collect_annotations_inv in C as (X & -> & EX). simpl in H.
  assert (El : lines = rev r' ++ [last] ++ rev X).
  { rewrite <- (rev_involutive lines), E. simpl. exact EX. }
  injection H as <- _. rewrite El, rev_app_distr.
  destruct (strip last =? "*/")%string; repeat rewrite <- app_assoc;
    apply subseq_app; try apply subseq_refl.
  - apply subseq_skip_l. apply subseq_app; [apply subseq_refl|].
    apply subseq_skip_r, subseq_refl.
  - apply subseq_app; [apply subseq_refl|].
    do 3 apply subseq_skip_l. apply subseq_skip_r, subseq_refl.
Qed.

Lemma add_javadoc_loop_subseq (S javadoc_type : string)
    (content fp lines annotations out : list string) :
  add_javadoc_loop S javadoc_type content lines annotations fp = Ok out ->
  subseq (lines ++ fp) out.
Proof.
  revert lines annotations. induction fp as [|l fp IH]; intros lines annotations H;
    simpl in H.
  - injection H as <-. rewrite app_nil_r. apply subseq_refl.
  - destruct (sig_match S l).
    + destruct (add_javadoc_match javadoc_type content l lines annotations)
        as [[lines' A']|] eqn:M; [|discriminate H]. simpl in H.
      apply add_javadoc_match_subseq in M. apply IH in H.
      rewrite <- app_assoc in H. simpl in H.
      eapply subseq_trans; [|exact H].
      apply subseq_app; [exact M | apply subseq_refl].
    + apply IH in H. now rewrite <- app_assoc in H.
Qed.

(** ** A block that is never closed *)

(** C4 (amended): when the signature matches exactly one line and no
    later line starts with the Indent Prefix immediately followed by a
    closing brace, [copy_and_rename_method] writes back the text it
    read and makes no copy, [annotate_method] writes every line back
    with its annotation line above the matching line, and [add_javadoc],
    when a line that is no annotation stands above the annotations of
    the matching line, writes every line back with the lines of the
    comment put in at that line; [remove_method] keeps exactly the lines
    above the matching line: the matching line and every line after it
    are dropped. *)
Theorem unterminated_block (F S before after javadoc_type annotation sig g : string)
    (content pre rest : list string) :
  readlines F = pre ++ sig :: rest ->
  plain S pre -> sig_match S sig = Some g ->
  plain S rest -> open_under (g +++ "}") rest ->
  remove_method F S = write pre
  /\ copy_and_rename_method F S before after = universal_newlines F
  /\ annotate_method F S annotation
     = write (pre ++ (spaces (String.length (Spec.leading_whitespace sig))
                        +++ annotation +++ nl) :: sig :: rest)
  /\ (forall base last an,
        pre = base ++ last :: an ->
        is_annotation last = false ->
        Forall (fun l => is_annotation l = true) an ->
        add_javadoc F S javadoc_type content
        = Ok (write (base
                       ++ Spec.documented (String.length (Spec.leading_whitespace sig))
                            javadoc_type content last
                       ++ an ++ sig :: rest))).
Proof.
  intros HF Hpre Hs Hrest Ho.
  assert (Hm : sig_matches S sig = true) by (unfold sig_matches; now rewrite Hs).
  repeat split.
  - unfold remove_method, remove_method_lines. rewrite HF.
    rewrite remove_method_loop_plain by assumption. simpl. rewrite Hs.
    rewrite <- (app_nil_r rest).
    now rewrite remove_method_loop_body.
  - unfold copy_and_rename_method, copy_and_rename_lines.
    rewrite <- (write_readlines F). rewrite HF.
    rewrite copy_and_rename_loop_plain by assumption. simpl. rewrite Hs.
    rewrite copy_and_rename_loop_open by assumption.
    now rewrite <- app_assoc.
  - unfold annotate_method, annotate_method_lines. rewrite HF.
    rewrite annotate_method_loop_flat_map, flat_map_app. simpl.
    rewrite !flat_map_annotated_plain by assumption.
    unfold annotated. rewrite Hs. now rewrite leading_spaces_length.
  - intros base last an -> Hl Ha.
    apply add_javadoc_one; try assumption.
    now rewrite <- app_assoc in HF.
Qed.

Lemma unterminated_block_witness :
  remove_method (write [ln "class A {"; ln "  f() {"; ln "    x();"]) "f()"
  = write [ln "class A {"]
  /\ copy_and_rename_method (write [ln "class A {"; ln "  f() {"; ln "    x();"])
       "f()" "f" "g"
     = write [ln "class A {"; ln "  f() {"; ln "    x();"]
  /\ annotate_method (write [ln "class A {"; ln "  f() {"; ln "    x();"]) "f()" "@X"
     = write [ln "class A {"; ln "  @X"; ln "  f() {"; ln "    x();"]
  /\ add_javadoc (write [ln "class A {"; ln "  f() {"; ln "    x();"]) "f()"
       "deprecated" ["Use g."]
     = Ok (write [ ln "class A {"; ln "  /**"; ln "   * @deprecated Use g.";
                   ln "   */"; ln "  f() {"; ln "    x();" ]).
Proof.
  pose proof (unterminated_block (write [ln "class A {"; ln "  f() {"; ln "    x();"])
                "f()" "f" "g" "deprecated" "@X" (ln "  f() {") "  " ["Use g."]
                [ln "class A {"] [ln "    x();"]) as H.
  check_premises H. destruct H as (H1 & H2 & H3 & H4).
  split; [exact H1|]. split; [exact H2|]. split; [exact H3|].
  apply (H4 [] (ln "class A {") []); check_lines.
Defined.

(** C4 (as stated) fails for [remove_method]: the lines of a block that
    is never closed are not in its output. *)
Lemma unterminated_as_specified_fails : ~ unterminated_as_specified.
Proof.
  intros H.
  specialize (H (write [ln "f() {"; ln "x"]) "f()" [] (ln "f() {") "" [ln "x"]).
  assert (E : subseq (readlines (write [ln "f() {"; ln "x"]))
                (readlines (remove_method (write [ln "f() {"; ln "x"]) "f()")))
    by (apply H; check_lines).
  vm_compute in E. inversion E.
Qed.

(** ** The top of the file *)

(** A matching line with nothing above it: [lines.pop()] raises. *)
Lemma add_javadoc_lines_first_line (S javadoc_type sig : string)
    (content rest : list string) :
  sig_matches S sig = true ->
  add_javadoc_lines S javadoc_type content (sig :: rest) = Raise IndexError.
Proof.
  unfold sig_matches, add_javadoc_lines. intros H. simpl.
  destruct (sig_match S sig); [reflexivity | discriminate H].
Qed.

(** A matching line with only annotation lines above it: the walk
    upwards pops the empty list. *)
Lemma add_javadoc_lines_annotations_on_top (S javadoc_type sig : string)
    (content an rest : list string) :
  plain S an -> Forall (fun l => is_annotation l = true) an ->
  sig_matches S sig = true ->
  add_javadoc_lines S javadoc_type content (an ++ sig :: rest) = Raise IndexError.
Proof.
  intros Hp Ha Hs. unfold add_javadoc_lines.
  rewrite add_javadoc_loop_plain by assumption. unfold sig_matches in Hs. simpl.
  destruct (sig_match S sig); [|discriminate Hs].
  unfold add_javadoc_match.
  assert (Hr : Forall (fun l => is_annotation l = true) (rev an))
    by (apply Forall_rev; exact Ha).
  destruct (rev an) as [|x ran]; [reflexivity|]. simpl.
  now rewrite collect_annotations_top.
Qed.

(** C5: the code raises where the claim says it does not.  With the
    matching line on the first line of the file, and with annotation
    lines reaching the top of the file, [add_javadoc] (and with it
    [deprecate_method]) raises [IndexError]; [annotate_method] returns
    on the same files. *)
Theorem add_javadoc_raises_at_top_of_file :
  add_javadoc (write [ln "public void main(String[] args) {"; ln "}"])
    main_signature "deprecated" ["Use foo."] = Raise IndexError
  /\ add_javadoc (write [ln "@Override"; ln "public void main(String[] args) {"; ln "}"])
       main_signature "deprecated" ["Use foo."] = Raise IndexError
  /\ deprecate_method (write [ln "public void main(String[] args) {"; ln "}"])
       main_signature "Use foo." = Raise IndexError
  /\ annotate_method (write [ln "public void main(String[] args) {"; ln "}"])
       main_signature "@Deprecated"
     = write [ln "@Deprecated"; ln "public void main(String[] args) {"; ln "}"].
Proof. repeat split; reflexivity. Qed.

(** ** More than one matching line *)






(** ** add_javadoc and annotate_method at one matching line *)

Lemma with_javadoc_frame (javadoc_type : string) (content : list string)
    (line last : string) :
  with_javadoc javadoc_type content line last
  = fst (javadoc_frame line last)
      ++ javadoc_entries (spaces (leading_spaces line)) javadoc_type true content
      ++ [snd (javadoc_frame line last)].
Proof.
  unfold with_javadoc, javadoc_frame.
  destruct (strip last =? "*/")%string; reflexivity.
Qed.

Lemma rstrip_head (c d : ascii) (r s : string) :
  rstrip (String c r) = String d s -> c = d.
Proof.
  simpl. destruct (rstrip r); [destruct (isspace c)|]; intros H;
    [discriminate H | |]; now injection H.
Qed.

(** The closing line of a comment is no annotation line. *)
Lemma closing_marker_not_annotation (l : string) :
  strip l = "*/" -> is_annotation l = false.
Proof.
  unfold strip, is_annotation. destruct (lstrip l) as [|c r]; [reflexivity|].
  intros H. apply rstrip_head in H. now subst c.
Qed.

Lemma javadoc_entries_indented (indent javadoc_type : string) (first : bool)
    (content : list string) :
  Forall (fun l => prefix indent l = true)
    (javadoc_entries indent javadoc_type first content).
Proof.
  revert first. induction content as [|c content IH]; intros first; simpl;
    constructor; [destruct first; apply prefix_append | apply IH].
Qed.

(** No entry is the opening or the closing line of a comment. *)
Lemma javadoc_entries_no_marker (indent javadoc_type : string) (first : bool)
    (content : list string) :
  Forall (fun l => l <> indent +++ "/**" +++ nl /\ l <> indent +++ " */" +++ nl)
    (javadoc_entries indent javadoc_type first content).
Proof.
  revert first. induction content as [|c content IH]; intros first; simpl;
    constructor; [|apply IH].
  split; intros H; destruct first; apply append_inv_head in H; discriminate H.
Qed.

Lemma annotate_method_lines_one (S annotation sig : string) (pre post : list string) :
  plain S pre -> plain S post -> sig_matches S sig = true ->
  annotate_method_lines S annotation (pre ++ sig :: post)
  = pre ++ (spaces (leading_spaces sig) +++ annotation +++ nl) :: sig :: post.
Proof.
  intros Hpre Hpost Hs. unfold annotate_method_lines.
  rewrite annotate_method_loop_flat_map, flat_map_app. simpl.
  rewrite !flat_map_annotated_plain by assumption.
  unfold annotated, sig_matches in *.
  destruct (sig_match S sig); [reflexivity | discriminate Hs].
Qed.

(** C7: when a line whose trimmed content is the closing marker of a
    comment stands above the annotation lines of the one matching line,
    [add_javadoc] inserts immediately before that line the first line
    of the content behind the tag and the other lines of the content as
    continuation lines, and nothing else: none of the inserted lines is
    the opening or the closing line of a comment, and the annotation
    lines stay, in their order, directly above the matching line. *)
Theorem add_javadoc_extends_existing_comment (F S javadoc_type sig close : string)
    (content pre an post : list string) :
  readlines F = pre ++ close :: an ++ sig :: post ->
  plain S (pre ++ close :: an) -> plain S post ->
  sig_matches S sig = true ->
  strip close = "*/" ->
  Forall (fun l => is_annotation l = true) an ->
  let n := String.length (Spec.leading_whitespace sig) in
  add_javadoc F S javadoc_type content
  = Ok (write (pre ++ Spec.tagged_lines n javadoc_type content
                 ++ close :: an ++ sig :: post))
  /\ Forall (fun l => l <> spaces n +++ "/**" +++ nl /\ l <> spaces n +++ " */" +++ nl)
       (Spec.tagged_lines n javadoc_type content).
Proof.
  intros HF Hpre Hpost Hs Hc Ha n. split.
  - rewrite (add_javadoc_one F S javadoc_type sig close content pre an post);
      try assumption; [|now apply closing_marker_not_annotation].
    fold n. unfold Spec.documented. rewrite Hc. cbn [String.eqb Ascii.eqb Bool.eqb].
    now rewrite <- app_assoc.
  - rewrite <- javadoc_entries_tagged. apply javadoc_entries_no_marker.
Qed.

Lemma add_javadoc_extends_existing_comment_witness :
  add_javadoc
    (write [ ln "class A {"; ln "  /**"; ln "   * Runs."; ln "   */";
             ln "  @Override"; ln "  @Beta"; ln "  void run() {"; ln "  }"; ln "}" ])
    "void run()" "deprecated" ["Use go."; "Soon gone."]
  = Ok (write [ ln "class A {"; ln "  /**"; ln "   * Runs.";
                ln "   * @deprecated Use go."; ln "   *   Soon gone.";
                ln "   */"; ln "  @Override"; ln "  @Beta";
                ln "  void run() {"; ln "  }"; ln "}" ])
  /\ Forall (fun l => l <> ln "  /**" /\ l <> ln "   */")
       [ln "   * @deprecated Use go."; ln "   *   Soon gone."].
Proof.
  apply (add_javadoc_extends_existing_comment
           (write [ ln "class A {"; ln "  /**"; ln "   * Runs."; ln "   */";
                    ln "  @Override"; ln "  @Beta"; ln "  void run() {"; ln "  }";
                    ln "}" ])
           "void run()" "deprecated" (ln "  void run() {") (ln "   */")
           ["Use go."; "Soon gone."]
           [ln "class A {"; ln "  /**"; ln "   * Runs."]
           [ln "  @Override"; ln "  @Beta"] [ln "  }"; ln "}"]);
    check_lines.
Defined.

(** ** The indentation of inserted lines *)

(** C8 (amended): the Indent Prefix is reused as a count of spaces, not
    as the characters themselves.  Whatever the file, [annotate_method]
    writes above every matching line one line made of as many spaces as
    that line has leading whitespace characters, the annotation and a
    line feed.  On a file with one matching line and a line that is no
    annotation above its annotations, every line that [add_javadoc]
    adds (the opening line, the content lines, the closing line) starts
    with as many spaces as the matching line has leading whitespace
    characters. *)
Theorem inserted_lines_are_indented_by_count (F S javadoc_type annotation : string)
    (content : list string) :
  annotate_method F S annotation
  = write (flat_map
             (fun line =>
                if sig_matches S line
                then [spaces (String.length (Spec.leading_whitespace line))
                        +++ annotation +++ nl; line]
                else [line])
             (readlines F))
  /\ forall sig last base an post,
       readlines F = base ++ last :: an ++ sig :: post ->
       plain S (base ++ last :: an) -> plain S post ->
       sig_matches S sig = true ->
       Forall (fun l => is_annotation l = true) an ->
       is_annotation last = false ->
       add_javadoc F S javadoc_type content
       = Ok (write (base
                      ++ Spec.documented (String.length (Spec.leading_whitespace sig))
                           javadoc_type content last
                      ++ an ++ sig :: post)).
Proof.
  split; [apply annotate_method_flat_map|].
  intros sig last base an post. apply add_javadoc_one.
Qed.

Lemma inserted_lines_are_indented_by_count_witness :
  annotate_method (write [ln "class A {"; String TAB (ln " f() {"); ln "}"]) "f()" "@X"
  = write [ln "class A {"; ln "  @X"; String TAB (ln " f() {"); ln "}"]
  /\ add_javadoc (write [ln "class A {"; String TAB (ln " f() {"); ln "}"]) "f()"
       "deprecated" ["Use g."]
     = Ok (write [ ln "class A {"; ln "  /**"; ln "   * @deprecated Use g.";
                   ln "   */"; String TAB (ln " f() {"); ln "}" ]).
Proof.
  destruct (inserted_lines_are_indented_by_count
              (write [ln "class A {"; String TAB (ln " f() {"); ln "}"]) "f()"
              "deprecated" "@X" ["Use g."]) as [H1 H2].
  split; [exact H1|].
  apply (H2 (String TAB (ln " f() {")) (ln "class A {") [] [] [ln "}"]); check_lines.
Defined.

(** C8 (as stated) fails: above a line indented with a tab the inserted
    line starts with a space. *)
Lemma indent_as_specified_fails : ~ indent_as_specified.
Proof.
  intros H.
  destruct (H (write [String TAB (ln "f() {")]) "f()" "@X" [] (String TAB (ln "f() {")) [])
    as [rest E]; try check_lines.
  vm_compute in E. discriminate E.
Qed.

(** ** The annotation buffer across matching lines *)



(** ** deprecate_method *)

(** When the signature starts with a character that is no whitespace,
    a match means that the line, stripped on the left, starts with it. *)
Lemma sig_match_lstrip (c : ascii) (S' line g : string) :
  isspace c = false ->
  sig_match (String c S') line = Some g ->
  prefix (String c S') (lstrip line) = true.
Proof.
  intros Hc. revert g. induction line as [|d r IH]; intros g H.
  - simpl in H. discriminate H.
  - cbn [sig_match lstrip] in *. destruct (isspace d) eqn:Hd.
    + destruct (sig_match (String c S') r) as [g'|]; [now apply (IH g')|].
      rewrite prefix_cons in H.
      assert (E : Ascii.eqb c d = false).
      { apply Ascii.eqb_neq. intros ->. congruence. }
      rewrite E in H. discriminate H.
    + destruct (prefix (String c S') (String d r)); [reflexivity | discriminate H].
Qed.

(** The lines the editors insert start, after their indentation, with a
    star, a slash or an at sign: a signature that starts otherwise does
    not match them. *)
Lemma inserted_not_matched (S l : string) (c : ascii) (r : string) :
  sig_head_ok S = true ->
  lstrip l = String c r ->
  c = "*"%char \/ c = "/"%char \/ c = "@"%char ->
  sig_match S l = None.
Proof.
  intros HS Hl Hc. destruct S as [|s0 S']; [discriminate HS|]. simpl in HS.
  apply andb_prop in HS as [HS H3]. apply andb_prop in HS as [HS H2].
  apply andb_prop in HS as [H0 H1].
  apply negb_true_iff in H0, H1, H2, H3.
  destruct (sig_match (String s0 S') l) as [g|] eqn:E; [|reflexivity].
  apply sig_match_lstrip in E; [|assumption].
  rewrite Hl, prefix_cons in E. apply andb_prop in E as [E _].
  apply Ascii.eqb_eq in E. subst s0.
  destruct Hc as [->|[->| ->]];
    [discriminate H1 | discriminate H2 | discriminate H3].
Qed.

Lemma javadoc_entries_plain (S javadoc_type : string) (n : nat) (first : bool)
    (content : list string) :
  sig_head_ok S = true ->
  plain S (javadoc_entries (spaces n) javadoc_type first content).
Proof.
  intros HS. revert first. induction content as [|c content IH]; intros first; simpl;
    constructor; [|apply IH].
  destruct first;
    (eapply inserted_not_matched;
     [exact HS | rewrite lstrip_spaces; reflexivity | now left]).
Qed.

Lemma is_full_line_append (a b : string) :
  no_newline a = true -> is_full_line b = true -> is_full_line (a +++ b) = true.
Proof.
  induction a as [|c r IH]; simpl; [auto|].
  intros H Hb. apply andb_prop in H as [Hc Hr]. apply andb_prop in Hc as [Hc Hd].
  apply negb_true_iff in Hc. rewrite Hc, Hd. auto.
Qed.

Lemma javadoc_entries_full (javadoc_type : string) (n : nat) (first : bool)
    (content : list string) :
  no_newline javadoc_type = true ->
  Forall (fun l => no_newline l = true) content ->
  Forall (fun l => is_full_line l = true)
    (javadoc_entries (spaces n) javadoc_type first content).
Proof.
  intros Ht Hc. revert first. induction Hc as [|c content Hc Hcs IH]; intros first;
    simpl; constructor; [|apply IH].
  destruct first;
    repeat (apply is_full_line_append;
            [first [apply no_newline_spaces | assumption | reflexivity]|]);
    reflexivity.
Qed.

(** A property of the line above and of the inserted lines holds for
    what [add_javadoc] writes in place of the line above. *)
Lemma with_javadoc_Forall (P : string -> Prop) (javadoc_type : string)
    (content : list string) (line last : string) :
  P last ->
  P (spaces (leading_spaces line) +++ "/**" +++ nl) ->
  P (spaces (leading_spaces line) +++ " */" +++ nl) ->
  Forall P (javadoc_entries (spaces (leading_spaces line)) javadoc_type true content) ->
  Forall P (with_javadoc javadoc_type content line last).
Proof.
  intros Hl Ho Hc He. unfold with_javadoc. destruct (strip last =? "*/")%string.
  - apply Forall_app. split; [exact He | now constructor].
  - simpl. constructor; [exact Hl|]. constructor; [exact Ho|].
    apply Forall_app. split; [exact He | now constructor].
Qed.

Lemma strip_closing_line (n : nat) : strip (spaces n +++ " */" +++ nl) = "*/".
Proof. unfold strip. rewrite lstrip_spaces. reflexivity. Qed.

(** The frame ends with a line whose trimmed content closes a comment. *)
Lemma javadoc_frame_closing (line last : string) :
  strip (snd (javadoc_frame line last)) = "*/".
Proof.
  unfold javadoc_frame. destruct (strip last =? "*/")%string eqn:E; simpl.
  - now apply String.eqb_eq.
  - apply strip_closing_line.
Qed.

Lemma marker_is_annotation (n : nat) :
  is_annotation (spaces n +++ "@Deprecated" +++ nl) = true.
Proof. unfold is_annotation. rewrite lstrip_spaces. reflexivity. Qed.

Lemma javadoc_above_Forall (P : string -> Prop) (javadoc_type : string)
    (content base an : list string) (line last : string) :
  Forall P (base ++ last :: an) ->
  P (spaces (leading_spaces line) +++ "/**" +++ nl) ->
  P (spaces (leading_spaces line) +++ " */" +++ nl) ->
  Forall P (javadoc_entries (spaces (leading_spaces line)) javadoc_type true content) ->
  Forall P (base ++ with_javadoc javadoc_type content line last ++ an).
Proof.
  intros H Ho Hc He. apply Forall_app in H as [Hb H]. inversion H; subst.
  apply Forall_app. split; [exact Hb|]. apply Forall_app. split; [|assumption].
  now apply with_javadoc_Forall.
Qed.

(** One call, on a file with one matching line and a line that is no
    annotation above its annotations: the file it writes, how that file
    reads back, and that none of the lines above the matching line
    matches. *)
Lemma deprecate_method_once (F S alternative sig last : string)
    (base an post : list string) :
  readlines F = base ++ last :: an ++ sig :: post ->
  plain S (base ++ last :: an) -> plain S post ->
  sig_matches S sig = true -> sig_head_ok S = true ->
  Forall (fun l => is_annotation l = true) an ->
  is_annotation last = false ->
  let lines :=
    base ++ with_javadoc "deprecated" (splitlines alternative) sig last
      ++ an ++ (spaces (leading_spaces sig) +++ "@Deprecated" +++ nl) :: sig :: post in
  deprecate_method F S alternative = Ok (write lines)
  /\ readlines (write lines) = lines
  /\ plain S (base ++ with_javadoc "deprecated" (splitlines alternative) sig last
                ++ an ++ [spaces (leading_spaces sig) +++ "@Deprecated" +++ nl]).
Proof.
  intros HF Hpre Hpost Hs HS Ha Hl lines.
  pose proof (file_lines_readlines F) as HFL. rewrite HF in HFL.
  change (base ++ last :: an ++ sig :: post)
    with (base ++ (last :: an) ++ sig :: post) in HFL.
  rewrite app_assoc in HFL. apply file_lines_app in HFL as [Hfull Hrest].
  set (content := splitlines alternative) in *.
  set (marker := spaces (leading_spaces sig) +++ "@Deprecated" +++ nl) in *.
  assert (Hfull1 : Forall (fun l => is_full_line l = true)
                     (base ++ with_javadoc "deprecated" content sig last ++ an)).
  { apply javadoc_above_Forall; try assumption.
    - apply is_full_line_append; [apply no_newline_spaces | reflexivity].
    - apply is_full_line_append; [apply no_newline_spaces | reflexivity].
    - apply javadoc_entries_full; [reflexivity | apply no_newline_splitlines]. }
  assert (Hplain1 : plain S (base ++ with_javadoc "deprecated" content sig last ++ an)).
  { apply javadoc_above_Forall; try assumption.
    - eapply inserted_not_matched;
        [exact HS | rewrite lstrip_spaces; reflexivity | right; now left].
    - eapply inserted_not_matched;
        [exact HS | rewrite lstrip_spaces; reflexivity | now left].
    - now apply javadoc_entries_plain. }
  assert (Hmfull : is_full_line marker = true)
    by (apply is_full_line_append; [apply no_newline_spaces | reflexivity]).
  assert (Hmplain : sig_match S marker = None)
    by (eapply inserted_not_matched;
        [exact HS | unfold marker; rewrite lstrip_spaces; reflexivity | now right; right]).
  assert (E1 : base ++ with_javadoc "deprecated" content sig last ++ an ++ sig :: post
               = (base ++ with_javadoc "deprecated" content sig last ++ an) ++ sig :: post)
    by now rewrite <- !app_assoc.
  assert (E2 : lines
               = ((base ++ with_javadoc "deprecated" content sig last ++ an) ++ [marker])
                   ++ sig :: post)
    by (unfold lines; repeat (rewrite <- ?app_assoc; cbn [app]); reflexivity).
  split; [|split].
  - subst content. unfold deprecate_method, add_javadoc. rewrite HF.
    rewrite add_javadoc_lines_one by assumption. cbn [bind].
    unfold annotate_method. f_equal.
    set (content := splitlines alternative) in *.
    rewrite E1, readlines_write by (apply file_lines_app; split; assumption).
    rewrite annotate_method_lines_one by assumption.
    unfold lines. now rewrite <- !app_assoc.
  - rewrite E2. apply readlines_write. apply file_lines_app. split; [|assumption].
    apply Forall_app. split; [assumption | now constructor].
  - replace (base ++ with_javadoc "deprecated" content sig last ++ an ++ [marker])
      with ((base ++ with_javadoc "deprecated" content sig last ++ an) ++ [marker])
      by now rewrite <- !app_assoc.
    apply Forall_app. split; [assumption | now constructor].
Qed.

Lemma with_javadoc_closing (javadoc_type : string) (content : list string)
    (line last : string) :
  strip last = "*/" ->
  with_javadoc javadoc_type content line last
  = javadoc_entries (spaces (leading_spaces line)) javadoc_type true content ++ [last].
Proof. intros H. unfold with_javadoc. now rewrite H. Qed.

(** Two calls, with the comment as the loops of [add_javadoc] write it. *)
Lemma deprecate_method_two_calls (F S alternative sig last : string)
    (base an post : list string) :
  readlines F = base ++ last :: an ++ sig :: post ->
  plain S (base ++ last :: an) -> plain S post ->
  sig_matches S sig = true -> sig_head_ok S = true ->
  Forall (fun l => is_annotation l = true) an ->
  is_annotation last = false ->
  let indent := spaces (leading_spaces sig) in
  let note := javadoc_entries indent "deprecated" true (splitlines alternative) in
  let marker := indent +++ "@Deprecated" +++ nl in
  let above := fst (javadoc_frame sig last) in
  let closing := snd (javadoc_frame sig last) in
  let once :=
    write (base ++ above ++ note ++ closing :: an ++ marker :: sig :: post) in
  let twice :=
    write (base ++ above ++ note ++ note ++ closing :: an
             ++ marker :: marker :: sig :: post) in
  deprecate_method F S alternative = Ok once
  /\ deprecate_method once S alternative = Ok twice
  /\ twice <> once.
Proof.
  intros HF Hpre Hpost Hs HS Ha Hl indent note marker above closing once twice.
  destruct (deprecate_method_once F S alternative sig last base an post)
    as (H1 & Hread & Hplain); try assumption.
  rewrite with_javadoc_frame in H1, Hread, Hplain.
  fold indent note marker above closing in H1, Hread, Hplain.
  assert (E : base ++ (above ++ note ++ [closing]) ++ an ++ marker :: sig :: post
              = (base ++ above ++ note) ++ closing :: (an ++ [marker]) ++ sig :: post)
    by (repeat (rewrite <- ?app_assoc; cbn [app]); reflexivity).
  assert (Eonce : once = write ((base ++ above ++ note) ++ closing :: (an ++ [marker])
                                  ++ sig :: post)).
  { unfold once. f_equal. repeat (rewrite <- ?app_assoc; cbn [app]). reflexivity. }
  split; [|split].
  - rewrite H1, E, Eonce. reflexivity.
  - destruct (deprecate_method_once once S alternative sig closing
                (base ++ above ++ note) (an ++ [marker]) post)
      as (H2 & _ & _); try assumption.
    + rewrite Eonce, <- E. exact Hread.
    + replace ((base ++ above ++ note) ++ closing :: an ++ [marker])
        with (base ++ (above ++ note ++ [closing]) ++ an ++ [marker])
        by (repeat (rewrite <- ?app_assoc; cbn [app]); reflexivity).
      exact Hplain.
    + apply Forall_app. split; [assumption|].
      constructor; [apply marker_is_annotation | constructor].
    + apply closing_marker_not_annotation, javadoc_frame_closing.
    + rewrite H2. do 2 f_equal.
      rewrite with_javadoc_closing by apply javadoc_frame_closing.
      fold indent note marker.
      repeat (rewrite <- ?app_assoc; cbn [app]). reflexivity.
  - intros Heq. apply (f_equal String.length) in Heq. unfold once, twice in Heq.
    repeat (rewrite ?write_app, ?append_length in Heq; cbn [write] in Heq).
    assert (Hm : 0 < String.length marker)
      by (unfold marker; rewrite append_length; simpl; lia).
    lia.
Qed.

(** C9 (amended): on a file with one matching line that has a line
    that is no annotation above its annotations, with a signature that
    starts with a character other than whitespace, a star, a slash and
    an at sign, and an alternative of at least one line, one call of
    [deprecate_method] adds one tagged [deprecated] entry (the first
    line of the alternative behind the tag, its other lines as
    continuation lines) to the comment above the method, a new comment
    when there was none, and one [@Deprecated] line directly above the
    matching line; a second call with the same arguments adds the entry
    and the line once more, so that the file after two calls differs
    from the file after one. *)
Theorem deprecate_method_twice (F S alternative sig last first_line : string)
    (more base an post : list string) :
  readlines F = base ++ last :: an ++ sig :: post ->
  plain S (base ++ last :: an) -> plain S post ->
  sig_matches S sig = true -> sig_head_ok S = true ->
  Forall (fun l => is_annotation l = true) an ->
  is_annotation last = false ->
  splitlines alternative = first_line :: more ->
  let n := String.length (Spec.leading_whitespace sig) in
  let note := Spec.tagged_lines n "deprecated" (first_line :: more) in
  let marker := spaces n +++ "@Deprecated" +++ nl in
  let above :=
    if String.eqb (strip last) "*/" then [] else [last; spaces n +++ "/**" +++ nl] in
  let closing :=
    if String.eqb (strip last) "*/" then last else spaces n +++ " */" +++ nl in
  let once :=
    write (base ++ above ++ note ++ closing :: an ++ marker :: sig :: post) in
  let twice :=
    write (base ++ above ++ note ++ note ++ closing :: an
             ++ marker :: marker :: sig :: post) in
  deprecate_method F S alternative = Ok once
  /\ deprecate_method once S alternative = Ok twice
  /\ twice <> once.
Proof.
  intros HF Hpre Hpost Hs HS Ha Hl Hsplit n note marker above closing once twice.
  pose proof (deprecate_method_two_calls F S alternative sig last base an post
                HF Hpre Hpost Hs HS Ha Hl) as H.
  cbv zeta in H. unfold javadoc_frame in H.
  rewrite Hsplit, leading_spaces_length, javadoc_entries_tagged in H.
  subst once twice above closing note marker n.
  destruct (String.eqb (strip last) "*/"); exact H.
Qed.

Lemma deprecate_method_twice_witness :
  deprecate_method
    (write [ln "class A {"; ln "  @Beta"; ln "  void f() {"; ln "  }"; ln "}"])
    "void f()" ("Use g." +++ nl +++ "Soon gone.")
  = Ok (write [ ln "class A {"; ln "  /**"; ln "   * @deprecated Use g.";
                ln "   *   Soon gone."; ln "   */"; ln "  @Beta"; ln "  @Deprecated";
                ln "  void f() {"; ln "  }"; ln "}" ])
  /\ deprecate_method
       (write [ ln "class A {"; ln "  /**"; ln "   * @deprecated Use g.";
                ln "   *   Soon gone."; ln "   */"; ln "  @Beta"; ln "  @Deprecated";
                ln "  void f() {"; ln "  }"; ln "}" ])
       "void f()" ("Use g." +++ nl +++ "Soon gone.")
     = Ok (write [ ln "class A {"; ln "  /**"; ln "   * @deprecated Use g.";
                   ln "   *   Soon gone."; ln "   * @deprecated Use g.";
                   ln "   *   Soon gone."; ln "   */"; ln "  @Beta";
                   ln "  @Deprecated"; ln "  @Deprecated";
                   ln "  void f() {"; ln "  }"; ln "}" ])
  /\ write [ ln "class A {"; ln "  /**"; ln "   * @deprecated Use g.";
             ln "   *   Soon gone."; ln "   * @deprecated Use g.";
             ln "   *   Soon gone."; ln "   */"; ln "  @Beta";
             ln "  @Deprecated"; ln "  @Deprecated";
             ln "  void f() {"; ln "  }"; ln "}" ]
     <> write [ ln "class A {"; ln "  /**"; ln "   * @deprecated Use g.";
                ln "   *   Soon gone."; ln "   */"; ln "  @Beta"; ln "  @Deprecated";
                ln "  void f() {"; ln "  }"; ln "}" ].
Proof.
  apply (deprecate_method_twice
           (write [ln "class A {"; ln "  @Beta"; ln "  void f() {"; ln "  }"; ln "}"])
           "void f()" ("Use g." +++ nl +++ "Soon gone.")
           (ln "  void f() {") (ln "class A {") "Use g." ["Soon gone."]
           [] [ln "  @Beta"] [ln "  }"; ln "}"]);
    check_lines.
Defined.

(** C9 (as stated) fails: with the signature present and its block
    closed, but an empty alternative, one call adds the marker and no
    documentation note. *)
Lemma deprecate_as_specified_fails : ~ deprecate_as_specified.
Proof.
  intros H.
  destruct (H (write [ln "class A {"; ln "  void f() {"; ln "  }"; ln "}"])
              "void f()" "" [ln "class A {"] (ln "  void f() {") "  " [] (ln "  }")
              [ln "}"])
    as (once & twice & E & N & _); try check_lines.
  vm_compute in E. injection E as <-. vm_compute in N. discriminate N.
Qed.

(** ** The signature pattern, read as a pattern *)

Lemma prefix_inv (p s : string) : prefix p s = true -> exists rest, s = p +++ rest.
Proof.
  revert s. induction p as [|c p IH]; intros s H.
  - exists s. reflexivity.
  - destruct s as [|d s]; [discriminate H|]. rewrite prefix_cons in H.
    apply andb_prop in H as [E H]. apply Ascii.eqb_eq in E. subst d.
    apply IH in H as [rest ->]. exists rest. reflexivity.
Qed.

(** A line that starts with the signature matches. *)
Lemma sig_match_prefix (S line : string) :
  prefix S line = true -> exists g, sig_match S line = Some g.
Proof.
  intros H. destruct line as [|c r]; cbn [sig_match]; rewrite H.
  - now exists "".
  - destruct (isspace c); [|now exists ""].
    destruct (sig_match S r) as [g|]; [now exists (String c g) | now exists ""].
Qed.

Lemma sig_match_sound (S line g : string) :
  sig_match S line = Some g ->
  all_space g = true /\ exists rest, line = g +++ S +++ rest.
Proof.
  revert g. induction line as [|c r IH]; intros g H; cbn [sig_match] in H.
  - destruct (prefix S "") eqn:P; [|discriminate H]. injection H as <-.
    split; [reflexivity | now apply prefix_inv].
  - assert (Hp : (if prefix S (String c r) then Some "" else None) = Some g ->
                 all_space g = true /\ exists rest, String c r = g +++ S +++ rest).
    { destruct (prefix S (String c r)) eqn:P; [|discriminate].
      intros E. injection E as <-. split; [reflexivity | now apply prefix_inv]. }
    destruct (isspace c) eqn:Hc; [|now apply Hp].
    destruct (sig_match S r) as [g'|]; [|now apply Hp].
    injection H as <-. destruct (IH g' eq_refl) as [Hg [rest ->]].
    split; [simpl; now rewrite Hc, Hg | now exists rest].
Qed.

(** Whitespace before the signature is taken by the group, and the
    group is at least that long. *)
Lemma sig_match_complete (S w rest : string) :
  all_space w = true ->
  exists g, sig_match S (w +++ S +++ rest) = Some g
            /\ String.length w <= String.length g.
Proof.
  induction w as [|c w IH]; intros Hw.
  - destruct (sig_match_prefix S (S +++ rest) (prefix_append S rest)) as [g Hg].
    exists g. split; [exact Hg | simpl; lia].
  - simpl in Hw. apply andb_prop in Hw as [Hc Hw].
    destruct (IH Hw) as [g [Hg Hl]]. exists (String c g).
    change (String c w +++ S +++ rest) with (String c (w +++ S +++ rest)).
    cbn [sig_match]. rewrite Hc, Hg. split; [reflexivity | simpl; lia].
Qed.

(** X1: the signature pattern matches a line exactly when the line is
    some whitespace, then the signature, then anything. *)
Theorem sig_matches_iff (S line : string) :
  sig_matches S line = true
  <-> exists w rest, all_space w = true /\ line = w +++ S +++ rest.
Proof.
  unfold sig_matches. split.
  - destruct (sig_match S line) as [g|] eqn:E; [|discriminate]. intros _.
    apply sig_match_sound in E as [Hg [rest ->]]. now exists g, rest.
  - intros (w & rest & Hw & ->).
    destruct (sig_match_complete S w rest Hw) as [g [-> _]]. reflexivity.
Qed.

(** X2: the group of a match is greedy: it is whitespace that the
    signature follows, and no longer run of whitespace at the start of
    the line is followed by the signature. *)
Theorem sig_match_group_is_greedy (S line g : string) :
  sig_match S line = Some g ->
  all_space g = true
  /\ (exists rest, line = g +++ S +++ rest)
  /\ forall w rest, all_space w = true -> line = w +++ S +++ rest ->
       String.length w <= String.length g.
Proof.
  intros H. destruct (sig_match_sound S line g H) as [Hg Hr].
  repeat split; [exact Hg | exact Hr |].
  intros w rest Hw ->. destruct (sig_match_complete S w rest Hw) as [g' [E Hl]].
  rewrite H in E. injection E as <-. exact Hl.
Qed.

Lemma sig_match_group_is_greedy_witness :
  all_space "   " = true
  /\ (exists rest, "    f(x)" = "   " +++ " f" +++ rest)
  /\ forall w rest, all_space w = true -> "    f(x)" = w +++ " f" +++ rest ->
       String.length w <= String.length "   ".
Proof. apply (sig_match_group_is_greedy " f" "    f(x)" "   "). reflexivity. Defined.

Lemma leading_whitespace_lstrip (line : string) :
  line = Spec.leading_whitespace line +++ lstrip line.
Proof.
  induction line as [|c r IH]; [reflexivity|].
  cbn [Spec.leading_whitespace lstrip]. destruct (isspace c); simpl; congruence.
Qed.

(** X3: when the signature starts with a character that is no
    whitespace, a line matches exactly when it starts, after its leading
    whitespace, with the signature, and the group is the whole leading
    whitespace of the line. *)
Theorem sig_match_of_leading_whitespace (c : ascii) (S' line : string) :
  isspace c = false ->
  sig_match (String c S') line
  = if prefix (String c S') (lstrip line)
    then Some (Spec.leading_whitespace line) else None.
Proof.
  intros Hc. induction line as [|d r IH].
  - reflexivity.
  - cbn [sig_match lstrip Spec.leading_whitespace]. destruct (isspace d) eqn:Hd.
    + rewrite IH. destruct (prefix (String c S') (lstrip r)); [reflexivity|].
      rewrite prefix_cons.
      assert (E : Ascii.eqb c d = false) by (apply Ascii.eqb_neq; congruence).
      now rewrite E.
    + reflexivity.
Qed.

Lemma sig_match_of_leading_whitespace_witness :
  sig_match main_signature (ln "    public void main(String[] args) {")
  = Some "    ".
Proof.
  exact (sig_match_of_leading_whitespace "p" "ublic void main(String[] args)"
           (ln "    public void main(String[] args) {") eq_refl).
Defined.

(** ** The empty signature *)

Lemma sig_match_empty (line : string) : exists g, sig_match "" line = Some g.
Proof. apply sig_match_prefix, prefix_nil. Qed.

(** When every line matches, nothing is written. *)
Lemma remove_method_loop_all_match (S : string) (st : option string)
    (lines fp : list string) :
  Forall (fun l => sig_matches S l = true) fp ->
  remove_method_loop S st lines fp = lines.
Proof.
  revert st. induction fp as [|l fp IH]; intros st H; [reflexivity|].
  inversion H as [|? ? Hl Hfp]; subst. unfold sig_matches in Hl. simpl.
  destruct (sig_match S l); [now apply IH | discriminate Hl].
Qed.

Lemma lines_of_nonempty (text : string) : text <> "" -> lines_of text <> [].
Proof.
  destruct text as [|c r]; [congruence|]. intros _. simpl.
  destruct (Ascii.eqb c LF); [discriminate|].
  destruct (lines_of r); discriminate.
Qed.

Lemma readlines_nonempty (F : string) : F <> "" -> readlines F <> [].
Proof.
  intros H. apply lines_of_nonempty. destruct F as [|c r]; [congruence|].
  unfold universal_newlines. cbn [universal_newlines_from andb].
  destruct (Ascii.eqb c CR); discriminate.
Qed.

(** X4: the empty signature matches every line: [remove_method] then
    empties the file, and [add_javadoc] and [deprecate_method] raise
    [IndexError] at the first line of a file that is not empty. *)
Theorem empty_signature (F javadoc_type alternative : string) (content : list string) :
  F <> "" ->
  remove_method F "" = ""
  /\ add_javadoc F "" javadoc_type content = Raise IndexError
  /\ deprecate_method F "" alternative = Raise IndexError.
Proof.
  intros HF. split.
  - unfold remove_method, remove_method_lines.
    rewrite remove_method_loop_all_match; [reflexivity|].
    apply Forall_forall. intros l _. unfold sig_matches.
    destruct (sig_match_empty l) as [g ->]. reflexivity.
  - assert (E : forall t c, add_javadoc F "" t c = Raise IndexError).
    { intros t c. unfold add_javadoc.
      destruct (readlines F) as [|l ls] eqn:R; [now apply readlines_nonempty in R|].
      rewrite add_javadoc_lines_first_line; [reflexivity|].
      unfold sig_matches. destruct (sig_match_empty l) as [g ->]. reflexivity. }
    split; [apply E|]. unfold deprecate_method. now rewrite E.
Qed.

Lemma empty_signature_witness :
  remove_method (write example_class) "" = ""
  /\ add_javadoc (write example_class) "" "deprecated" ["Use foo."] = Raise IndexError
  /\ deprecate_method (write example_class) "" "Use foo." = Raise IndexError.
Proof.
  apply (empty_signature (write example_class) "deprecated" "Use foo." ["Use foo."]).
  discriminate.
Defined.

(** ** What remove_method leaves *)

Lemma subseq_insert {A : Type} (l r : list A) (x : A) (a : list A) :
  subseq a (l ++ r) -> subseq a (l ++ x :: r).
Proof.
  intros H. eapply subseq_trans; [exact H|].
  apply subseq_app; [apply subseq_refl | apply subseq_skip, subseq_refl].
Qed.

Lemma remove_method_loop_subseq (S : string) (st : option string)
    (lines fp : list string) :
  subseq (remove_method_loop S st lines fp) (lines ++ fp).
Proof.
  revert st lines. induction fp as [|l fp IH]; intros st lines; simpl.
  - rewrite app_nil_r. apply subseq_refl.
  - destruct (sig_match S l); [apply subseq_insert, IH|].
    destruct st as [closing|].
    + destruct (prefix closing l); apply subseq_insert, IH.
    + specialize (IH None (lines ++ [l])). now rewrite <- app_assoc in IH.
Qed.

Lemma remove_method_loop_keeps_plain (S : string) (st : option string)
    (lines fp : list string) :
  plain S lines -> plain S (remove_method_loop S st lines fp).
Proof.
  revert st lines. induction fp as [|l fp IH]; intros st lines H; simpl; [exact H|].
  destruct (sig_match S l) eqn:E; [now apply IH|].
  destruct st as [closing|].
  - destruct (prefix closing l); now apply IH.
  - apply IH. apply plain_app. split; [exact H|]. now constructor.
Qed.

Lemma file_lines_tail (l : string) (ls : list string) :
  file_lines (l :: ls) -> file_lines ls.
Proof. destruct ls; simpl; [trivial | intros [_ H]; exact H]. Qed.

Lemma file_lines_head (l : string) (ls : list string) :
  file_lines (l :: ls) -> file_lines [l].
Proof. destruct ls; simpl; [trivial | intros [H _]; now left]. Qed.

(** Lines taken in order from the lines of a file are the lines of a
    file. *)
Lemma subseq_file_lines (a b : list string) :
  subseq a b -> file_lines b -> file_lines a.
Proof.
  intros H. induction H as [|x xs ys H IH|x xs ys H IH]; intros Hb.
  - exact I.
  - apply IH. now apply file_lines_tail in Hb.
  - destruct xs as [|x' xs'].
    + now apply file_lines_head in Hb.
    + destruct ys as [|y ys']; [inversion H|].
      destruct Hb as [Hx Hys]. split; [exact Hx | now apply IH].
Qed.

Lemma remove_method_lines_read_back (F S : string) :
  readlines (remove_method F S) = remove_method_lines S (readlines F).
Proof.
  unfold remove_method. apply readlines_write.
  apply (subseq_file_lines _ (readlines F)); [|apply file_lines_readlines].
  unfold remove_method_lines.
  apply (remove_method_loop_subseq S None [] (readlines F)).
Qed.

(** X5: whatever the file, the lines [remove_method] writes are lines
    of the file, in their order, and none of them matches the
    signature. *)
Theorem remove_method_leaves_no_match (F S : string) :
  subseq (readlines (remove_method F S)) (readlines F)
  /\ plain S (readlines (remove_method F S)).
Proof.
  rewrite remove_method_lines_read_back. unfold remove_method_lines. split.
  - apply (remove_method_loop_subseq S None [] (readlines F)).
  - apply remove_method_loop_keeps_plain. constructor.
Qed.

(** X6: [remove_method] is idempotent: a second call with the same
    signature writes the file back as the first call left it. *)
Theorem remove_method_idempotent (F S : string) :
  remove_method (remove_method F S) S = remove_method F S.
Proof.
  unfold remove_method at 1. rewrite remove_method_lines_read_back.
  unfold remove_method, remove_method_lines.
  rewrite <- (app_nil_r (remove_method_loop S None [] (readlines F))) at 1.
  rewrite remove_method_loop_plain; [reflexivity|].
  apply remove_method_loop_keeps_plain. constructor.
Qed.

(** ** What copy_and_rename_method and annotate_method keep *)

Lemma copy_and_rename_loop_subseq (S before after : string) (st : option string)
    (lines method fp : list string) :
  subseq (lines ++ fp) (copy_and_rename_loop S before after st lines method fp).
Proof.
  revert st lines method. induction fp as [|l fp IH]; intros st lines method; simpl.
  - rewrite app_nil_r. apply subseq_refl.
  - destruct (sig_match S l).
    + specialize (IH (Some (s +++ "}")) (lines ++ [l])
                     (method ++ [replace before after l])).
      now rewrite <- app_assoc in IH.
    + destruct st as [closing|].
      * destruct (prefix closing l).
        -- eapply subseq_trans; [|apply IH].
           rewrite <- !app_assoc. apply subseq_app; [apply subseq_refl|].
           simpl. apply subseq_keep, subseq_skip, subseq_skip_l.
           simpl. apply subseq_skip, subseq_refl.
        -- specialize (IH (Some closing) (lines ++ [l]) (method ++ [l])).
           now rewrite <- app_assoc in IH.
      * specialize (IH None (lines ++ [l]) method).
        now rewrite <- app_assoc in IH.
Qed.

Lemma subseq_write_length (a b : list string) :
  subseq a b -> String.length (write a) <= String.length (write b).
Proof.
  intros H. induction H; simpl; rewrite ?append_length; lia.
Qed.

(** X7: whatever the file, [copy_and_rename_method] drops no line: the
    lines read are among the lines it writes, in their order, and what
    it writes is at least as long as the text it read. *)
Theorem copy_and_rename_method_keeps_every_line (F S before after : string) :
  subseq (readlines F) (copy_and_rename_lines S before after (readlines F))
  /\ String.length (universal_newlines F)
     <= String.length (copy_and_rename_method F S before after).
Proof.
  assert (H : subseq (readlines F)
                (copy_and_rename_lines S before after (readlines F))).
  { apply (copy_and_rename_loop_subseq S before after None [] [] (readlines F)). }
  split; [exact H|]. unfold copy_and_rename_method.
  rewrite <- (write_readlines F) at 1. now apply subseq_write_length.
Qed.

Lemma flat_map_annotated_length (S annotation : string) (fp : list string) :
  List.length (flat_map (annotated S annotation) fp)
  = List.length fp + count_matches S fp.
Proof.
  unfold count_matches. induction fp as [|l fp IH]; [reflexivity|].
  cbn [flat_map filter]. rewrite length_app, IH.
  unfold annotated, sig_matches. destruct (sig_match S l); simpl; lia.
Qed.

Lemma flat_map_annotated_subseq (S annotation : string) (fp : list string) :
  subseq fp (flat_map (annotated S annotation) fp).
Proof.
  induction fp as [|l fp IH]; [constructor|]. cbn [flat_map].
  unfold annotated at 1. destruct (sig_match S l); simpl.
  - now apply subseq_skip, subseq_keep.
  - now apply subseq_keep.
Qed.

(** X8: whatever the file, [annotate_method] writes every line of the
    file back, in order, and one more line for each line that matches
    the signature. *)
Theorem annotate_method_adds_one_line_per_match (F S annotation : string) :
  subseq (readlines F) (annotate_method_lines S annotation (readlines F))
  /\ List.length (annotate_method_lines S annotation (readlines F))
     = List.length (readlines F) + count_matches S (readlines F).
Proof.
  unfold annotate_method_lines. rewrite annotate_method_loop_flat_map. simpl.
  split; [apply flat_map_annotated_subseq | apply flat_map_annotated_length].
Qed.

(** ** When add_javadoc raises *)

(** The lines above the first matching line, if a line matches. *)
Lemma first_match_split (S : string) (fp : list string) :
  plain S fp
  \/ exists pre sig rest,
       fp = pre ++ sig :: rest /\ plain S pre /\ sig_matches S sig = true.
Proof.
  induction fp as [|l fp IH]; [left; constructor|].
  destruct (sig_match S l) as [g|] eqn:E.
  - right. exists [], l, fp. repeat split; [constructor|].
    unfold sig_matches. now rewrite E.
  - destruct IH as [IH|(pre & sig & rest & -> & Hp & Hs)].
    + left. now constructor.
    + right. exists (l :: pre), sig, rest. repeat split; [now constructor | exact Hs].
Qed.

Lemma annotations_or_anchored (ls : list string) :
  Forall (fun l => is_annotation l = true) ls \/ anchored ls.
Proof.
  unfold anchored. induction ls as [|l ls [IH|IH]].
  - left. constructor.
  - destruct (is_annotation l) eqn:E.
    + left. now constructor.
    + right. now apply Exists_cons_hd.
  - right. now apply Exists_cons_tl.
Qed.

(** The lowest line that is no annotation line, and the annotation
    lines below it. *)
Lemma anchored_split (ls : list string) :
  anchored ls ->
  exists base last an,
    ls = base ++ last :: an /\ is_annotation last = false
    /\ Forall (fun l => is_annotation l = true) an.
Proof.
  induction ls as [|l ls IH]; intros H; [inversion H|].
  destruct (annotations_or_anchored ls) as [Ha|Hb].
  - destruct (is_annotation l) eqn:E.
    + exfalso. inversion H as [? ? Hl|? ? Hr]; subst; [congruence|].
      apply Exists_exists in Hr as (x & Hin & Hx).
      rewrite Forall_forall in Ha. specialize (Ha x Hin). congruence.
    + exists [], l, ls. repeat split; assumption.
  - destruct (IH Hb) as (base & last & an & -> & Hl & Ha).
    exists (l :: base), last, an. repeat split; assumption.
Qed.

Lemma with_javadoc_In (javadoc_type : string) (content : list string)
    (line last : string) :
  In last (with_javadoc javadoc_type content line last).
Proof.
  unfold with_javadoc. destruct (strip last =? "*/")%string.
  - apply in_or_app. right. now left.
  - now left.
Qed.

(** Once a line that is no annotation line is held, the edit at a
    matching line returns, and such a line is still held. *)
Lemma add_javadoc_match_anchored (javadoc_type line : string)
    (content lines annotations : list string) :
  anchored lines ->
  exists lines' annotations',
    add_javadoc_match javadoc_type content line lines annotations
    = Ok (lines', annotations')
    /\ anchored lines'.
Proof.
  intros H. apply anchored_split in H as (base & last & an & -> & Hl & Ha).
  rewrite add_javadoc_match_above by assumption.
  eexists _, _. split; [reflexivity|].
  unfold anchored. apply Exists_app. right. apply Exists_app. left.
  apply Exists_exists. exists last. split; [apply with_javadoc_In | exact Hl].
Qed.

Lemma add_javadoc_loop_anchored (S javadoc_type : string)
    (content lines annotations fp : list string) :
  anchored lines ->
  exists out, add_javadoc_loop S javadoc_type content lines annotations fp = Ok out.
Proof.
  revert lines annotations. induction fp as [|l fp IH]; intros lines annotations H; simpl.
  - now exists lines.
  - destruct (sig_match S l).
    + destruct (add_javadoc_match_anchored javadoc_type l content lines annotations H)
        as (lines' & annotations' & -> & H').
      simpl. apply IH. unfold anchored. apply Exists_app. now left.
    + apply IH. unfold anchored. apply Exists_app. now left.
Qed.

Lemma add_javadoc_lines_raise_iff (S javadoc_type : string) (content fp : list string) :
  add_javadoc_lines S javadoc_type content fp = Raise IndexError
  <-> annotations_reach_top S fp.
Proof.
  split.
  - intros H. destruct (first_match_split S fp) as [Hp|(pre & sig & rest & -> & Hp & Hs)].
    + rewrite add_javadoc_lines_plain in H by assumption. discriminate H.
    + destruct (annotations_or_anchored pre) as [Ha|Hb].
      * now exists pre, sig, rest.
      * unfold add_javadoc_lines in H. rewrite add_javadoc_loop_plain in H by assumption.
        destruct (add_javadoc_loop_anchored S javadoc_type content ([] ++ pre) []
                    (sig :: rest) Hb) as [out E].
        rewrite E in H. discriminate H.
  - intros (an & sig & rest & -> & Hp & Ha & Hs).
    now apply add_javadoc_lines_annotations_on_top.
Qed.

(** X9: [add_javadoc] raises [IndexError] exactly when the first line
    that matches the signature has nothing but annotation lines above
    it, up to the top of the file (no line at all included); on every
    other file it returns, however many lines match.  [deprecate_method]
    raises on the same files. *)
Theorem add_javadoc_raises_iff (F S javadoc_type alternative : string)
    (content : list string) :
  (add_javadoc F S javadoc_type content = Raise IndexError
   <-> annotations_reach_top S (readlines F))
  /\ (deprecate_method F S alternative = Raise IndexError
      <-> annotations_reach_top S (readlines F)).
Proof.
  assert (E : forall t c, add_javadoc F S t c = Raise IndexError
                          <-> annotations_reach_top S (readlines F)).
  { intros t c. rewrite <- (add_javadoc_lines_raise_iff S t c). unfold add_javadoc.
    destruct (add_javadoc_lines S t c (readlines F)) as [lines|[]]; simpl;
      split; intros H; try reflexivity; discriminate H. }
  split; [apply E|]. rewrite <- (E "deprecated" (splitlines alternative)).
  unfold deprecate_method.
  destruct (add_javadoc F S "deprecated" (splitlines alternative)) as [out|[]]; simpl;
    split; intros H; try reflexivity; discriminate H.
Qed.

(** ** A new comment *)

Lemma javadoc_entries_continuation (indent javadoc_type : string) (content : list string) :
  javadoc_entries indent javadoc_type false content = continuation_lines indent content.
Proof. induction content as [|c content IH]; simpl; [reflexivity | now rewrite IH]. Qed.

(** X10: when the line above the annotations of the only matching line
    does not close a comment, [add_javadoc] opens one below that line:
    the opening line, the first line of the content behind the tag, the
    other lines of the content as continuation lines, and the closing
    line, all above the annotations. *)
Theorem add_javadoc_opens_new_comment (F S javadoc_type sig last first_line : string)
    (more base an post : list string) :
  readlines F = base ++ last :: an ++ sig :: post ->
  plain S (base ++ last :: an) -> plain S post ->
  sig_matches S sig = true ->
  Forall (fun l => is_annotation l = true) an ->
  is_annotation last = false ->
  strip last <> "*/" ->
  let indent := spaces (leading_spaces sig) in
  add_javadoc F S javadoc_type (first_line :: more)
  = Ok (write (base ++ last
                 :: (indent +++ "/**" +++ nl)
                 :: (indent +++ " * @" +++ javadoc_type +++ " " +++ first_line +++ nl)
                 :: continuation_lines indent more
                 ++ (indent +++ " */" +++ nl) :: an ++ sig :: post)).
Proof.
  intros HF Hp Hq Hs Ha Hl Hc indent. unfold add_javadoc. rewrite HF.
  rewrite add_javadoc_lines_one by assumption. cbn [bind]. do 2 f_equal. f_equal.
  unfold with_javadoc. apply String.eqb_neq in Hc. rewrite Hc.
  cbn [javadoc_entries]. rewrite javadoc_entries_continuation. fold indent.
  repeat (rewrite <- ?app_assoc; cbn [app]). reflexivity.
Qed.

Lemma add_javadoc_opens_new_comment_witness :
  add_javadoc (write example_class) main_signature "deprecated" ["Use foo."; "It is safer."]
  = Ok (write [ ln "class Example {";
                ln "    /**";
                ln "     * @deprecated Use foo.";
                ln "     *   It is safer.";
                ln "     */";
                ln "    public void main(String[] args) {";
                ln "        System.out.println(1);";
                ln "    }";
                ln "";
                ln "    public String foo() {";
                ln "        return null;";
                ln "    }";
                ln "}" ]).
Proof.
  apply (add_javadoc_opens_new_comment (write example_class) main_signature "deprecated"
           (ln "    public void main(String[] args) {") (ln "class Example {")
           "Use foo." ["It is safer."] [] []
           [ ln "        System.out.println(1);"; ln "    }"; ln "";
             ln "    public String foo() {"; ln "        return null;";
             ln "    }"; ln "}" ]);
    try discriminate; check_lines.
Defined.

(** X11: with an empty alternative there is nothing to add to a comment
    that exists: when the line above the annotations of the only
    matching line closes a comment, [add_javadoc] with no content writes
    back the text it read, and [deprecate_method] only annotates the
    method. *)
Theorem deprecate_method_without_alternative (F S sig close : string)
    (pre an post : list string) :
  readlines F = pre ++ close :: an ++ sig :: post ->
  plain S (pre ++ close :: an) -> plain S post ->
  sig_matches S sig = true ->
  strip close = "*/" ->
  Forall (fun l => is_annotation l = true) an ->
  add_javadoc F S "deprecated" [] = Ok (universal_newlines F)
  /\ deprecate_method F S "" = Ok (annotate_method F S "@Deprecated").
Proof.
  intros HF Hp Hq Hs Hc Ha.
  assert (E : add_javadoc F S "deprecated" [] = Ok (universal_newlines F)).
  { unfold add_javadoc. rewrite HF.
    rewrite add_javadoc_lines_one; try assumption.
    - cbn [bind]. unfold with_javadoc. rewrite Hc. cbn [String.eqb Ascii.eqb Bool.eqb].
      simpl. rewrite <- HF. now rewrite write_readlines.
    - now apply closing_marker_not_annotation. }
  split; [exact E|]. unfold deprecate_method.
  change (splitlines "") with (@nil string). rewrite E. cbn [bind].
  unfold annotate_method. now rewrite readlines_universal_newlines.
Qed.

Lemma deprecate_method_without_alternative_witness :
  add_javadoc
    (write [ln "/**"; ln " * Runs."; ln " */"; ln "@Override"; ln "void run() {"; ln "}"])
    "void run()" "deprecated" []
  = Ok (write [ln "/**"; ln " * Runs."; ln " */"; ln "@Override"; ln "void run() {"; ln "}"])
  /\ deprecate_method
       (write [ln "/**"; ln " * Runs."; ln " */"; ln "@Override"; ln "void run() {"; ln "}"])
       "void run()" ""
     = Ok (annotate_method
             (write [ln "/**"; ln " * Runs."; ln " */"; ln "@Override"; ln "void run() {"; ln "}"])
             "void run()" "@Deprecated").
Proof.
  apply (deprecate_method_without_alternative
           (write [ln "/**"; ln " * Runs."; ln " */"; ln "@Override"; ln "void run() {"; ln "}"])
           "void run()" (ln "void run() {") (ln " */")
           [ln "/**"; ln " * Runs."] [ln "@Override"] [ln "}"]);
    check_lines.
Defined.

(** ** The method buffer of copy_and_rename_method *)

(** X12: [method] is not emptied when a block closes: after the second
    closed block, the lines written below the blank line are the renamed
    copy of the first block again, then the renamed copy of the second
    block. *)
Theorem copy_and_rename_method_repeats_earlier_copies (F S before after : string)
    (sig1 g1 closer1 sig2 g2 closer2 : string)
    (pre body1 mid body2 post : list string) :
  readlines F = pre ++ (sig1 :: body1 ++ [closer1]) ++ mid
                  ++ (sig2 :: body2 ++ [closer2]) ++ post ->
  plain S pre -> closed_block S sig1 g1 body1 closer1 ->
  plain S mid -> closed_block S sig2 g2 body2 closer2 ->
  plain S post ->
  copy_and_rename_method F S before after
  = write (pre ++ (sig1 :: body1 ++ [closer1]) ++ [nl]
             ++ renamed_block before after sig1 body1 closer1
             ++ mid ++ (sig2 :: body2 ++ [closer2]) ++ [nl]
             ++ renamed_block before after sig1 body1 closer1
             ++ renamed_block before after sig2 body2 closer2
             ++ post).
Proof.
  intros HF Hpre (Hs1 & Hb1 & Ho1 & Hc1 & Hp1) Hmid (Hs2 & Hb2 & Ho2 & Hc2 & Hp2) Hpost.
  assert (E : readlines F = pre ++ sig1 :: body1 ++ closer1 :: mid
                              ++ sig2 :: body2 ++ closer2 :: post).
  { rewrite HF. repeat (rewrite <- ?app_assoc; simpl). reflexivity. }
  unfold copy_and_rename_method, copy_and_rename_lines. rewrite E.
  rewrite copy_and_rename_loop_plain by assumption.
  rewrite (copy_and_rename_loop_block S before after None sig1 g1) by assumption.
  rewrite copy_and_rename_loop_plain by assumption.
  rewrite (copy_and_rename_loop_block S before after None sig2 g2) by assumption.
  rewrite <- (app_nil_r post) at 1.
  rewrite copy_and_rename_loop_plain by assumption. simpl.
  unfold renamed_block. f_equal.
  repeat (rewrite <- ?app_assoc; simpl). reflexivity.
Qed.

Lemma copy_and_rename_method_repeats_earlier_copies_witness :
  copy_and_rename_method
    (write [ln "f() {"; ln "}"; ln "class B {"; ln "  f() {"; ln "    x;"; ln "  }"; ln "}"])
    "f()" "f" "g"
  = write [ ln "f() {"; ln "}"; ln ""; ln "g() {"; ln "}";
            ln "class B {"; ln "  f() {"; ln "    x;"; ln "  }"; ln "";
            ln "g() {"; ln "}"; ln "  g() {"; ln "    x;"; ln "  }";
            ln "}" ].
Proof.
  apply (copy_and_rename_method_repeats_earlier_copies
           (write [ln "f() {"; ln "}"; ln "class B {"; ln "  f() {"; ln "    x;";
                   ln "  }"; ln "}"])
           "f()" "f" "g" (ln "f() {") "" (ln "}") (ln "  f() {") "  " (ln "  }")
           [] [] [ln "class B {"] [ln "    x;"] [ln "}"]);
    check_lines.
Defined.

(** ** Copying, then removing *)

Lemma file_lines_full (a : list string) :
  Forall (fun l => is_full_line l = true) a -> file_lines a.
Proof.
  induction a as [|x a IH]; intros H; [exact I|]. inversion H; subst.
  apply file_lines_cons; auto.
Qed.

Lemma file_lines_app_full (a b : list string) :
  Forall (fun l => is_full_line l = true) a -> file_lines b -> file_lines (a ++ b).
Proof.
  intros Ha Hb. destruct b as [|x b].
  - rewrite app_nil_r. now apply file_lines_full.
  - apply file_lines_app. now split.
Qed.

(** X13: [copy_and_rename_method] followed by [remove_method] with the
    same signature renames the method in place: when the renamed
    signature line no longer matches, the block is replaced by a blank
    line and its renamed copy. *)
Theorem remove_method_after_copy_renames (F S before after sig g closer : string)
    (pre body post : list string) :
  readlines F = pre ++ sig :: body ++ closer :: post ->
  plain S pre -> closed_block S sig g body closer -> plain S post ->
  is_full_line closer = true ->
  is_full_line (replace before after sig) = true ->
  sig_match S (replace before after sig) = None ->
  sig_match S nl = None ->
  remove_method (copy_and_rename_method F S before after) S
  = write (pre ++ nl :: renamed_block before after sig body closer ++ post).
Proof.
  intros HF Hpre Hblock Hpost Hcl Hrf Hrp Hnl.
  pose proof Hblock as (Hs & Hb & Ho & Hc & Hp).
  pose proof (file_lines_readlines F) as HFL. rewrite HF in HFL.
  assert (Hpre_full : Forall (fun l => is_full_line l = true) (pre ++ sig :: body)).
  { replace (pre ++ sig :: body ++ closer :: post)
      with ((pre ++ sig :: body) ++ closer :: post) in HFL
      by (rewrite <- app_assoc; reflexivity).
    now apply file_lines_app in HFL as [H _]. }
  assert (Hpost_fl : file_lines post).
  { replace (pre ++ sig :: body ++ closer :: post)
      with ((pre ++ sig :: body) ++ closer :: post) in HFL
      by (rewrite <- app_assoc; reflexivity).
    apply file_lines_app in HFL as [_ H]. now apply file_lines_tail in H. }
  apply Forall_app in Hpre_full as [Hpre_full Hblock_full].
  inversion Hblock_full as [|? ? Hsig_full Hbody_full]; subst.
  unfold copy_and_rename_method.
  rewrite HF, (copy_and_rename_lines_block S before after sig g closer) by assumption.
  unfold remove_method. f_equal.
  rewrite readlines_write.
  - replace (pre ++ (sig :: body ++ [closer]) ++ [nl]
               ++ renamed_block before after sig body closer ++ post)
      with (pre ++ sig :: body ++ closer
              :: (nl :: renamed_block before after sig body closer ++ post))
      by (repeat (rewrite <- ?app_assoc; cbn [app]); reflexivity).
    apply (remove_method_lines_block S sig g closer); try assumption.
    apply plain_cons. split; [exact Hnl|]. apply plain_app. split; [|exact Hpost].
    unfold renamed_block. apply plain_cons. split; [exact Hrp|].
    apply plain_app. split; [exact Hb | now constructor].
  - rewrite !app_assoc. apply file_lines_app_full; [|exact Hpost_fl].
    repeat (apply Forall_app; split); try assumption.
    + constructor; [exact Hsig_full|]. apply Forall_app. split; [exact Hbody_full|].
      now constructor.
    + now constructor.
    + unfold renamed_block. constructor; [exact Hrf|].
      apply Forall_app. split; [exact Hbody_full | now constructor].
Qed.

Lemma remove_method_after_copy_renames_witness :
  remove_method (copy_and_rename_method (write example_class) main_signature "main" "run")
    main_signature
  = write [ ln "class Example {";
            ln "";
            ln "    public void run(String[] args) {";
            ln "        System.out.println(1);";
            ln "    }";
            ln "";
            ln "    public String foo() {";
            ln "        return null;";
            ln "    }";
            ln "}" ].
Proof.
  apply (remove_method_after_copy_renames (write example_class) main_signature
           "main" "run"
           (ln "    public void main(String[] args) {") "    " (ln "    }")
           [ln "class Example {"] [ln "        System.out.println(1);"]
           [ ln ""; ln "    public String foo() {"; ln "        return null;";
             ln "    }"; ln "}" ]);
    check_lines.
Defined.

(** ** The two steps of deprecate_method *)



(** ** License headers *)

Section Patterns.

(** A pattern that is not empty and none of whose items matches a line
    feed or a carriage return: a match lies within one line. *)
Variable pattern : list atom.
Hypothesis pattern_not_empty : pattern <> [].
Hypothesis pattern_within_line :
  Forall (fun a => atom_matches a LF = false) pattern.
Hypothesis pattern_without_cr :
  Forall (fun a => atom_matches a CR = false) pattern.

Lemma match_here_full_line (p : list atom) (l rest : string) :
  Forall (fun a => atom_matches a LF = false) p ->
  is_full_line l = true ->
  match_here p (l +++ rest) = match_here p l.
Proof.
  revert p. induction l as [|c l IH]; intros p Hp Hl; [discriminate Hl|].
  destruct p as [|a p]; [reflexivity|]. inversion Hp as [|? ? Ha Hp']; subst.
  cbn [String.append match_here]. simpl in Hl.
  destruct (Ascii.eqb c LF) eqn:Ec.
  - apply Ascii.eqb_eq in Ec. subst c. now rewrite Ha.
  - apply andb_prop in Hl as [_ Hl]. now rewrite IH.
Qed.

Lemma search_nil : search pattern "" = false.
Proof. destruct pattern; [contradiction | reflexivity]. Qed.

Lemma match_here_lf (rest : string) : match_here pattern (String LF rest) = false.
Proof.
  destruct pattern as [|a p]; [contradiction|].
  inversion pattern_within_line as [|? ? Ha _]; subst. simpl. now rewrite Ha.
Qed.

Lemma search_full_line (l rest : string) :
  is_full_line l = true ->
  search pattern (l +++ rest) = search pattern l || search pattern rest.
Proof.
  induction l as [|c l IH]; intros Hl; [discriminate Hl|].
  pose proof (match_here_full_line pattern (String c l) rest pattern_within_line Hl) as E.
  cbn [String.append] in E. cbn [String.append search]. rewrite E.
  simpl in Hl. destruct (Ascii.eqb c LF) eqn:Ec.
  - apply Ascii.eqb_eq in Ec. subst c. apply String.eqb_eq in Hl. subst l.
    rewrite match_here_lf. cbn [String.append]. rewrite search_nil. reflexivity.
  - apply andb_prop in Hl as [_ Hl]. rewrite IH by assumption. now rewrite orb_assoc.
Qed.

Lemma match_here_cr (rest : string) : match_here pattern (String CR rest) = false.
Proof.
  destruct pattern as [|a p]; [contradiction|].
  inversion pattern_without_cr as [|? ? Ha _]; subst. simpl. now rewrite Ha.
Qed.

(** A match does not see how the lines end. *)
Lemma match_here_universal_newlines (p : list atom) (s : string) :
  Forall (fun a => atom_matches a LF = false) p ->
  Forall (fun a => atom_matches a CR = false) p ->
  match_here p (universal_newlines_from false s) = match_here p s.
Proof.
  revert p. induction s as [|c r IH]; intros p Hl Hc; [reflexivity|].
  destruct p as [|a p]; [reflexivity|].
  inversion Hl as [|? ? Hal Hl']; inversion Hc as [|? ? Hac Hc']; subst.
  cbn [universal_newlines_from andb]. destruct (Ascii.eqb c CR) eqn:Ec.
  - apply Ascii.eqb_eq in Ec. subst c. cbn [match_here]. now rewrite Hal, Hac.
  - cbn [match_here]. now rewrite IH.
Qed.

Lemma search_universal_newlines_from (after_cr : bool) (s : string) :
  search pattern (universal_newlines_from after_cr s) = search pattern s.
Proof.
  revert after_cr. induction s as [|c r IH]; intros after_cr; [reflexivity|].
  cbn [universal_newlines_from].
  destruct (after_cr && Ascii.eqb c LF) eqn:E.
  - apply andb_prop in E as [_ E]. apply Ascii.eqb_eq in E. subst c.
    cbn [search]. now rewrite match_here_lf, IH.
  - destruct (Ascii.eqb c CR) eqn:Ec.
    + apply Ascii.eqb_eq in Ec. subst c. cbn [search].
      now rewrite match_here_lf, match_here_cr, IH.
    + pose proof (match_here_universal_newlines pattern (String c r)
                    pattern_within_line pattern_without_cr) as M.
      cbn [universal_newlines_from andb] in M. rewrite Ec in M.
      cbn [search]. now rewrite M, IH.
Qed.

(** Searching line by line finds what searching the whole text finds. *)
Lemma search_lines (ls : list string) :
  file_lines ls -> existsb (search pattern) ls = search pattern (write ls).
Proof.
  induction ls as [|l ls IH]; intros H.
  - cbn [existsb write]. now rewrite search_nil.
  - cbn [existsb write]. destruct ls as [|l' ls'].
    + cbn [existsb write]. now rewrite append_nil_r, orb_false_r.
    + destruct H as [Hl Hr]. rewrite IH by assumption. now rewrite search_full_line.
Qed.

End Patterns.

Lemma search_iff (p : list atom) (s : string) :
  search p s = true <-> exists a b, s = a +++ b /\ match_here p b = true.
Proof.
  split.
  - induction s as [|c r IH]; cbn [search]; intros H.
    + rewrite orb_false_r in H. now exists "", "".
    + apply orb_prop in H as [H|H].
      * now exists "", (String c r).
      * destruct (IH H) as (a & b & -> & Hb). now exists (String c a), b.
  - intros (a & b & -> & Hb). induction a as [|c a IH].
    + simpl. destruct b; cbn [search]; now rewrite Hb.
    + cbn [String.append search]. now rewrite IH, orb_true_r.
Qed.

Lemma match_here_literal (t : string) (q : list atom) (s : string) :
  match_here (literal t ++ q) s = true
  <-> exists s', s = t +++ s' /\ match_here q s' = true.
Proof.
  revert s. induction t as [|c t IH]; intros s.
  - simpl. split; [intros H; now exists s | now intros (s' & -> & H)].
  - cbn [literal app match_here]. destruct s as [|d s].
    + split; [discriminate | intros (s' & E & _); discriminate E].
    + cbn [atom_matches]. split.
      * intros H. apply andb_prop in H as [Hc H]. apply Ascii.eqb_eq in Hc. subst d.
        apply IH in H as (s' & -> & H). now exists s'.
      * intros (s' & E & H). injection E as -> ->.
        rewrite Ascii.eqb_refl. apply IH. now exists s'.
Qed.

Lemma match_here_digit (q : list atom) (s : string) :
  match_here (Digit :: q) s = true
  <-> exists d s', s = String d s' /\ isdigit d = true /\ match_here q s' = true.
Proof.
  cbn [match_here]. destruct s as [|d s].
  - split; [discriminate | intros (d & s' & E & _); discriminate E].
  - cbn [atom_matches]. split.
    + intros H. apply andb_prop in H as [Hd H]. now exists d, s.
    + intros (d' & s' & E & Hd & H). injection E as -> ->. now rewrite Hd, H.
Qed.

(** What [HEADER_REGEX] matches at the start of a text. *)
Lemma match_here_header (s : string) :
  match_here HEADER_REGEX s = true
  <-> exists d1 d2 d3 d4 below,
        isdigit d1 = true /\ isdigit d2 = true
        /\ isdigit d3 = true /\ isdigit d4 = true
        /\ s = "* Copyright " +++ String d1 (String d2 (String d3 (String d4 "")))
                 +++ " Google LLC" +++ below.
Proof.
  unfold HEADER_REGEX. rewrite match_here_literal. split.
  - intros (s1 & -> & H).
    cbn [app] in H.
    apply match_here_digit in H as (d1 & s2 & -> & H1 & H).
    apply match_here_digit in H as (d2 & s3 & -> & H2 & H).
    apply match_here_digit in H as (d3 & s4 & -> & H3 & H).
    apply match_here_digit in H as (d4 & s5 & -> & H4 & H).
    rewrite <- (app_nil_r (literal " Google LLC")) in H.
    apply match_here_literal in H as (below & -> & _).
    now exists d1, d2, d3, d4, below.
  - intros (d1 & d2 & d3 & d4 & below & H1 & H2 & H3 & H4 & ->).
    eexists. split; [reflexivity|]. cbn [app String.append].
    apply match_here_digit. eexists _, _. split; [reflexivity|]. split; [exact H1|].
    apply match_here_digit. eexists _, _. split; [reflexivity|]. split; [exact H2|].
    apply match_here_digit. eexists _, _. split; [reflexivity|]. split; [exact H3|].
    apply match_here_digit. eexists _, _. split; [reflexivity|]. split; [exact H4|].
    reflexivity.
Qed.

Lemma header_regex_within_line :
  Forall (fun a => atom_matches a LF = false) HEADER_REGEX.
Proof. unfold HEADER_REGEX. repeat constructor. Qed.

Lemma header_regex_without_cr :
  Forall (fun a => atom_matches a CR = false) HEADER_REGEX.
Proof. unfold HEADER_REGEX. repeat constructor. Qed.

(** The pattern does not span lines and matches no line ending, so the
    file has a header exactly when the pattern matches somewhere in its
    content. *)
Lemma file_has_header_search (F : string) :
  _file_has_header F = search HEADER_REGEX F.
Proof.
  unfold _file_has_header.
  rewrite search_lines;
    try first [ discriminate | apply header_regex_within_line
              | apply header_regex_without_cr | apply file_lines_readlines ].
  rewrite write_readlines. unfold universal_newlines.
  apply search_universal_newlines_from;
    first [ discriminate | apply header_regex_within_line
          | apply header_regex_without_cr ].
Qed.

(** X15: [_file_has_header] answers [True] exactly when the text of the
    file holds, anywhere, a star, a space, the word Copyright, a space,
    four digits, a space and the name of the company. *)
Theorem file_has_header_iff (F : string) :
  _file_has_header F = true
  <-> exists above d1 d2 d3 d4 below,
        isdigit d1 = true /\ isdigit d2 = true
        /\ isdigit d3 = true /\ isdigit d4 = true
        /\ F = above +++ "* Copyright "
                 +++ String d1 (String d2 (String d3 (String d4 "")))
                 +++ " Google LLC" +++ below.
Proof.
  rewrite file_has_header_search, search_iff. split.
  - intros (a & b & -> & H).
    apply match_here_header in H as (d1 & d2 & d3 & d4 & below & H1 & H2 & H3 & H4 & ->).
    now exists a, d1, d2, d3, d4, below.
  - intros (a & d1 & d2 & d3 & d4 & below & H1 & H2 & H3 & H4 & ->).
    eexists a, _. split; [reflexivity|]. apply match_here_header.
    now exists d1, d2, d3, d4, below.
Qed.

(** X16: a file that holds [GOOD_LICENSE], the header that the fixers
    put in, has a header, whatever stands above and below it. *)
Theorem good_license_is_a_header (above below : string) :
  _file_has_header (above +++ GOOD_LICENSE +++ below) = true.
Proof.
  rewrite file_has_header_search. apply search_iff.
  exists (above +++ "/*" +++ nl +++ " "). eexists. split.
  - rewrite !append_assoc. apply (f_equal (String.append above)). reflexivity.
  - apply match_here_header. exists "2"%char, "0"%char, "2"%char, "0"%char.
    eexists. repeat split.
Qed.

(** ** Maven coordinates *)

Lemma split_not_nil (sep : ascii) (s : string) : Maven.split sep s <> [].
Proof.
  destruct s as [|c r]; simpl; [discriminate|].
  destruct (Ascii.eqb c sep); [discriminate|].
  destruct (Maven.split sep r); discriminate.
Qed.

Lemma join_cons (sep x : string) (xs : list string) :
  xs <> [] -> Maven.join sep (x :: xs) = x +++ sep +++ Maven.join sep xs.
Proof. destruct xs; [contradiction | reflexivity]. Qed.

Lemma join_head (sep : string) (c : ascii) (x : string) (xs : list string) :
  Maven.join sep (String c x :: xs) = String c (Maven.join sep (x :: xs)).
Proof. destruct xs; reflexivity. Qed.

(** X17: the path of a group id in [latest_maven_version] is the group
    id with every dot turned into a slash: joining with a slash what
    was split at the dots changes nothing else and keeps the length. *)
Theorem group_path_translates_dots (group_id : string) :
  Maven.group_path group_id = translate "." "/" group_id
  /\ String.length (Maven.group_path group_id) = String.length group_id.
Proof.
  assert (E : Maven.group_path group_id = translate "." "/" group_id).
  { unfold Maven.group_path. induction group_id as [|c r IH]; [reflexivity|].
    cbn [Maven.split translate]. destruct (Ascii.eqb c ".") eqn:Ec.
    - rewrite join_cons by apply split_not_nil. simpl. now rewrite IH.
    - pose proof (split_not_nil "." r) as Hn.
      destruct (Maven.split "." r) as [|x xs]; [contradiction|].
      rewrite join_head. now rewrite IH. }
  split; [exact E|]. rewrite E. clear E.
  induction group_id as [|c r IH]; simpl; congruence.
Qed.

(** ** What add_javadoc keeps *)

(** X18: whatever the file and however many lines match, when
    [add_javadoc] returns it has dropped no line: the lines read are
    among the lines it writes, in their order, and what it writes is at
    least as long as the text it read. *)
Theorem add_javadoc_keeps_every_line (F S javadoc_type out : string)
    (content : list string) :
  add_javadoc F S javadoc_type content = Ok out ->
  (exists lines,
     add_javadoc_lines S javadoc_type content (readlines F) = Ok lines
     /\ out = write lines /\ subseq (readlines F) lines)
  /\ String.length (universal_newlines F) <= String.length out.
Proof.
  unfold add_javadoc. intros H.
  destruct (add_javadoc_lines S javadoc_type content (readlines F)) as [lines|] eqn:E;
    [|discriminate H].
  injection H as <-.
  assert (Hs : subseq (readlines F) lines)
    by (apply (add_javadoc_loop_subseq S javadoc_type content (readlines F) [] []), E).
  split; [now exists lines|].
  rewrite <- (write_readlines F) at 1. now apply subseq_write_length.
Qed.

Lemma add_javadoc_keeps_every_line_witness :
  (exists lines,
     add_javadoc_lines "void run()" "deprecated" ["Use go."]
       (readlines (write [ln "class A {"; ln "  @Override"; ln "  void run() {"; ln "  }";
                          ln "}"]))
     = Ok lines
     /\ write [ ln "class A {"; ln "  /**"; ln "   * @deprecated Use go."; ln "   */";
                ln "  @Override"; ln "  void run() {"; ln "  }"; ln "}" ]
        = write lines
     /\ subseq (readlines (write [ln "class A {"; ln "  @Override"; ln "  void run() {";
                                  ln "  }"; ln "}"])) lines)
  /\ String.length (write [ln "class A {"; ln "  @Override"; ln "  void run() {"; ln "  }";
                           ln "}"])
     <= String.length
          (write [ ln "class A {"; ln "  /**"; ln "   * @deprecated Use go."; ln "   */";
                   ln "  @Override"; ln "  void run() {"; ln "  }"; ln "}" ]).
Proof.
  apply (add_javadoc_keeps_every_line
           (write [ln "class A {"; ln "  @Override"; ln "  void run() {"; ln "  }"; ln "}"])
           "void run()" "deprecated"
           (write [ ln "class A {"; ln "  /**"; ln "   * @deprecated Use go."; ln "   */";
                    ln "  @Override"; ln "  void run() {"; ln "  }"; ln "}" ])
           ["Use go."]).
  reflexivity.
Defined.
